(** * blk.game.server.ServerGame: the authoritative game server

    A shallow embedding of [src/blk/game/server/servergame.js].  The
    JavaScript objects the server shares between its tables (users,
    players, entities, chunk views) live in a store indexed by object
    identity; the methods of [ServerGame] become functions that pass the
    server state along.  Collaborators whose code is outside this file are
    either parameters (record [Externals]) or small models written from the
    design document, each marked as such. *)

From Stdlib Require Import ZArith List Bool Lia.
From Stdlib Require Import Floats.SpecFloat.
From stdpp Require Import base gmap list strings.

Local Open Scope Z_scope.

(** ** JavaScript numbers

    Identifiers, flags, sequence numbers, block data and block coordinates
    are only ever used as integers and are kept in [Z].  Times and vector
    components are IEEE 754 binary64 values. *)

Abbreviation number := spec_float.

Definition number_of_Z (z : Z) : number := binary_normalize 53 1024 z 0 false.

Definition number_mul (a b : number) : number := SFmul 53 1024 a b.

(** The integer part of a number (truncation toward zero); infinities and
    NaN have none. *)
Definition integerPart (x : number) : option Z :=
  match x with
  | S754_zero _ => Some 0
  | S754_finite sign m e =>
      let a := match e with
               | Zneg k => Z.shiftr (Zpos m) (Zpos k)
               | _ => Z.shiftl (Zpos m) e
               end in
      Some (if sign then - a else a)
  | S754_infinity _ | S754_nan => None
  end.

(** Reduction of an integer to the signed 32-bit range. *)
Definition wrap32 (z : Z) : Z := (z + 2 ^ 31) mod 2 ^ 32 - 2 ^ 31.

(** [x | 0] on a number: ECMAScript ToInt32. *)
Definition ToInt32 (x : number) : Z := wrap32 (default 0 (integerPart x)).

(** [n >> k] on an integer-valued number. *)
Definition sar (n k : Z) : Z := Z.shiftr (wrap32 n) k.

(** Object identity: the key of an object in the store. *)
Abbreviation loc := nat.

(** ** Data model *)

Module Vec3.
Record t := make { x : number; y : number; z : number }.

Definition createFloat32FromValues (a b c : Z) : t :=
  make (number_of_Z a) (number_of_Z b) (number_of_Z c).
End Vec3.

Module Quaternion.
Record t := make { x : number; y : number; z : number; w : number }.
End Quaternion.

Module EntityState.
Record t := make {
  time : Z;
  position : Vec3.t;
  rotation : Quaternion.t;
  velocity : Vec3.t
}.

Definition set_time (v : Z) (st : t) : t :=
  make v (position st) (rotation st) (velocity st).

Definition set_position (v : Vec3.t) (st : t) : t :=
  make (time st) v (rotation st) (velocity st).
End EntityState.

Module Entity.
(** The fields of blk.env.Entity this file reads and writes. *)
Record t := make {
  id : Z;
  flags : Z;
  player : option loc;
  state : EntityState.t;
  hasSentLatestState : bool
}.

Definition set_flags (v : Z) (e : t) : t :=
  make (id e) v (player e) (state e) (hasSentLatestState e).

Definition set_player (v : option loc) (e : t) : t :=
  make (id e) (flags e) v (state e) (hasSentLatestState e).

Definition set_state (v : EntityState.t) (e : t) : t :=
  make (id e) (flags e) (player e) v (hasSentLatestState e).

Definition set_hasSentLatestState (v : bool) (e : t) : t :=
  make (id e) (flags e) (player e) (state e) v.
End Entity.

Module MoveCommand.
(** Modelled from the spec: blk.physics.MoveCommand is not part of this
    file; the design document only relies on the sequence number a
    command carries. *)
Record t := make { sequence : Z }.
End MoveCommand.

Module ServerMovement.
(** Modelled from the spec: blk.physics.ServerMovement is not part of this
    file.  The two sequence counters are the fields [update] reads and
    writes; the view it is built over, the entity it is attached to and
    the queue of pending commands follow the design document.  A
    controller is created in [handleUserConnect] and referenced from that
    player only, so it is kept inside the player object. *)
Record t := make {
  view : loc;
  target : option loc;
  lastSequence : Z;
  lastSequenceSent : Z;
  commands : list MoveCommand.t
}.

Definition set_target (v : option loc) (m : t) : t :=
  make (view m) v (lastSequence m) (lastSequenceSent m) (commands m).

Definition set_lastSequenceSent (v : Z) (m : t) : t :=
  make (view m) (target m) (lastSequence m) v (commands m).

Definition set_commands (v : list MoveCommand.t) (m : t) : t :=
  make (view m) (target m) (lastSequence m) (lastSequenceSent m) v.

(** Modelled from the spec: ServerMovement.attach is not part of this
    file; the controller is attached to exactly one entity. *)
Definition attach (e : loc) (m : t) : t := set_target (Some e) m.

(** Modelled from the spec: ServerMovement.queueCommands is not part of
    this file; it appends the commands, in order, to the pending queue. *)
Definition queueCommands (cs : list MoveCommand.t) (m : t) : t :=
  set_commands (commands m ++ cs) m.
End ServerMovement.

Module ServerPlayer.
(** The fields of blk.game.server.ServerPlayer this file reads and writes;
    [disposed] is the mark [goog.dispose] leaves. *)
Record t := make {
  user : loc;
  entity : option loc;
  view : option loc;
  movement : option ServerMovement.t;
  disposed : bool
}.

Definition set_entity (v : option loc) (p : t) : t :=
  make (user p) v (view p) (movement p) (disposed p).

Definition set_view (v : option loc) (p : t) : t :=
  make (user p) (entity p) v (movement p) (disposed p).

Definition set_movement (v : option ServerMovement.t) (p : t) : t :=
  make (user p) (entity p) (view p) v (disposed p).

Definition set_disposed (v : bool) (p : t) : t :=
  make (user p) (entity p) (view p) (movement p) v.

Definition getUser (p : t) : loc := user p.
End ServerPlayer.

Module User.
(** gf.net.User: the session's handle of one connection, with the slot
    [data] the game stores its player in. *)
Record t := make {
  sessionId : string;
  wireId : Z;
  data : option loc
}.

Definition set_data (v : option loc) (u : t) : t :=
  make (sessionId u) (wireId u) v.
End User.

Module ServerMapObserver.
(** Modelled from the spec: blk.game.server.ServerMapObserver is not part
    of this file; an observer is built from a player and a view. *)
Record t := make { player : loc; view : loc }.
End ServerMapObserver.

Module ChunkView.
(** Modelled from the spec: blk.env.ChunkView is not part of this file; a
    view has a radius, a centre once it is initialized, and its observers
    in order.  [disposed] is the mark [goog.dispose] leaves. *)
Record t := make {
  radius : Z;
  center : option Vec3.t;
  observers : list ServerMapObserver.t;
  disposed : bool
}.

Definition set_center (v : option Vec3.t) (c : t) : t :=
  make (radius c) v (observers c) (disposed c).

Definition set_observers (v : list ServerMapObserver.t) (c : t) : t :=
  make (radius c) (center c) v (disposed c).

Definition set_disposed (v : bool) (c : t) : t :=
  make (radius c) (center c) (observers c) v.
End ChunkView.

(** The packets this file creates ([blk.net.packets.*.createData]). *)
Inductive Packet :=
| EntityCreate (id flags ownerWireId : Z) (position : Vec3.t)
    (rotation : Quaternion.t) (velocity : Vec3.t)
| EntityDelete (id : Z)
| EntityPosition (sequence : Z) (entityStates : list EntityState.t)
| ReadyPlayer
| SetBlock (x y z blockData : Z).

(** What [gf.log.write] is called with. *)
Inductive LogEntry :=
| ClientConnected (sessionId : string)
| ClientDisconnected (sessionId : string)
| UnknownBlockType.

Global Instance Vec3_inhabited : Inhabited Vec3.t :=
  populate (Vec3.createFloat32FromValues 0 0 0).
Global Instance Quaternion_inhabited : Inhabited Quaternion.t :=
  populate (Quaternion.make (number_of_Z 0) (number_of_Z 0) (number_of_Z 0)
              (number_of_Z 1)).
Global Instance EntityState_inhabited : Inhabited EntityState.t :=
  populate (EntityState.make 0 inhabitant inhabitant inhabitant).
Global Instance Entity_inhabited : Inhabited Entity.t :=
  populate (Entity.make 0 0 None inhabitant true).
Global Instance ServerPlayer_inhabited : Inhabited ServerPlayer.t :=
  populate (ServerPlayer.make 0%nat None None None false).
Global Instance User_inhabited : Inhabited User.t :=
  populate (User.make EmptyString 0 None).
Global Instance ChunkView_inhabited : Inhabited ChunkView.t :=
  populate (ChunkView.make 0 None [] false).

(** ** The server state

    The four stores hold the objects; every other field holds identities.
    [session_*] and [chat_members] are the part of the session and chat
    collaborators the game drives; [map_*] is [this.map] (the same object
    as [this.state.map]); [state_players] is [this.state.players]. *)
Record ServerGame := {
  users : gmap loc User.t;
  players : gmap loc ServerPlayer.t;
  entities : gmap loc Entity.t;
  views : gmap loc ChunkView.t;
  nextObject : loc;
  session_users : list loc;
  session_sent : list (Packet * option loc);
  chat_members : list (loc * string);
  map_entities : list loc;
  map_chunkViews : list loc;
  map_blockSet : gset Z;
  map_blocks : gmap (Z * Z * Z) Z;
  state_players : list loc;
  nextEntityId_ : Z;
  log : list LogEntry
}.

Definition with_users (f : gmap loc User.t -> gmap loc User.t)
  (s : ServerGame) : ServerGame :=
  Build_ServerGame (f (users s)) (players s) (entities s) (views s)
    (nextObject s) (session_users s) (session_sent s) (chat_members s)
    (map_entities s) (map_chunkViews s) (map_blockSet s) (map_blocks s)
    (state_players s) (nextEntityId_ s) (log s).

Definition with_players (f : gmap loc ServerPlayer.t -> gmap loc ServerPlayer.t)
  (s : ServerGame) : ServerGame :=
  Build_ServerGame (users s) (f (players s)) (entities s) (views s)
    (nextObject s) (session_users s) (session_sent s) (chat_members s)
    (map_entities s) (map_chunkViews s) (map_blockSet s) (map_blocks s)
    (state_players s) (nextEntityId_ s) (log s).

Definition with_entities (f : gmap loc Entity.t -> gmap loc Entity.t)
  (s : ServerGame) : ServerGame :=
  Build_ServerGame (users s) (players s) (f (entities s)) (views s)
    (nextObject s) (session_users s) (session_sent s) (chat_members s)
    (map_entities s) (map_chunkViews s) (map_blockSet s) (map_blocks s)
    (state_players s) (nextEntityId_ s) (log s).

Definition with_views (f : gmap loc ChunkView.t -> gmap loc ChunkView.t)
  (s : ServerGame) : ServerGame :=
  Build_ServerGame (users s) (players s) (entities s) (f (views s))
    (nextObject s) (session_users s) (session_sent s) (chat_members s)
    (map_entities s) (map_chunkViews s) (map_blockSet s) (map_blocks s)
    (state_players s) (nextEntityId_ s) (log s).

Definition with_nextObject (f : loc -> loc)
  (s : ServerGame) : ServerGame :=
  Build_ServerGame (users s) (players s) (entities s) (views s)
    (f (nextObject s)) (session_users s) (session_sent s) (chat_members s)
    (map_entities s) (map_chunkViews s) (map_blockSet s) (map_blocks s)
    (state_players s) (nextEntityId_ s) (log s).

Definition with_session_sent (f : list (Packet * option loc) -> list (Packet * option loc))
  (s : ServerGame) : ServerGame :=
  Build_ServerGame (users s) (players s) (entities s) (views s) (nextObject s)
    (session_users s) (f (session_sent s)) (chat_members s) (map_entities s)
    (map_chunkViews s) (map_blockSet s) (map_blocks s) (state_players s)
    (nextEntityId_ s) (log s).

Definition with_chat_members (f : list (loc * string) -> list (loc * string))
  (s : ServerGame) : ServerGame :=
  Build_ServerGame (users s) (players s) (entities s) (views s) (nextObject s)
    (session_users s) (session_sent s) (f (chat_members s)) (map_entities s)
    (map_chunkViews s) (map_blockSet s) (map_blocks s) (state_players s)
    (nextEntityId_ s) (log s).

Definition with_map_entities (f : list loc -> list loc)
  (s : ServerGame) : ServerGame :=
  Build_ServerGame (users s) (players s) (entities s) (views s) (nextObject s)
    (session_users s) (session_sent s) (chat_members s) (f (map_entities s))
    (map_chunkViews s) (map_blockSet s) (map_blocks s) (state_players s)
    (nextEntityId_ s) (log s).

Definition with_map_chunkViews (f : list loc -> list loc)
  (s : ServerGame) : ServerGame :=
  Build_ServerGame (users s) (players s) (entities s) (views s) (nextObject s)
    (session_users s) (session_sent s) (chat_members s) (map_entities s)
    (f (map_chunkViews s)) (map_blockSet s) (map_blocks s) (state_players s)
    (nextEntityId_ s) (log s).

Definition with_map_blocks (f : gmap (Z * Z * Z) Z -> gmap (Z * Z * Z) Z)
  (s : ServerGame) : ServerGame :=
  Build_ServerGame (users s) (players s) (entities s) (views s) (nextObject s)
    (session_users s) (session_sent s) (chat_members s) (map_entities s)
    (map_chunkViews s) (map_blockSet s) (f (map_blocks s)) (state_players s)
    (nextEntityId_ s) (log s).

Definition with_state_players (f : list loc -> list loc)
  (s : ServerGame) : ServerGame :=
  Build_ServerGame (users s) (players s) (entities s) (views s) (nextObject s)
    (session_users s) (session_sent s) (chat_members s) (map_entities s)
    (map_chunkViews s) (map_blockSet s) (map_blocks s) (f (state_players s))
    (nextEntityId_ s) (log s).

Definition with_nextEntityId_ (f : Z -> Z)
  (s : ServerGame) : ServerGame :=
  Build_ServerGame (users s) (players s) (entities s) (views s) (nextObject s)
    (session_users s) (session_sent s) (chat_members s) (map_entities s)
    (map_chunkViews s) (map_blockSet s) (map_blocks s) (state_players s)
    (f (nextEntityId_ s)) (log s).

Definition with_log (f : list LogEntry -> list LogEntry)
  (s : ServerGame) : ServerGame :=
  Build_ServerGame (users s) (players s) (entities s) (views s) (nextObject s)
    (session_users s) (session_sent s) (chat_members s) (map_entities s)
    (map_chunkViews s) (map_blockSet s) (map_blocks s) (state_players s)
    (nextEntityId_ s) (f (log s)).
Record Frame := { frame_time : number }.

(** The parts of the tick that belong to other files: the session's
    network poll, the per-player update, the game-state update, and the
    constants and constructor defaults the connection handler reads. *)
Record Externals := {
  session_poll : ServerGame -> ServerGame;
  ServerPlayer_update : Frame -> loc -> ServerGame -> ServerGame;
  GameState_update : Frame -> ServerGame -> ServerGame;
  HIGH_CHUNK_RADIUS_XZ : Z;
  USER_CONTROLLED : Z;
  Entity_initialState : EntityState.t;
  Entity_initialSent : bool;
  ServerMovement_initialSequence : Z;
  ServerMovement_initialSequenceSent : Z
}.

(** ** Collaborator calls *)

(** [session.send(data, opt_user)]: with no user the packet goes to every
    connected user. *)
Definition session_send (data : Packet) (opt_user : option loc)
  (s : ServerGame) : ServerGame :=
  with_session_sent (fun l => l ++ [(data, opt_user)]) s.

(** The users a recorded send reaches, given the connected users. *)
Definition recipients (connected : list loc) (m : Packet * option loc)
  : list loc :=
  match snd m with
  | Some u => [u]
  | None => connected
  end.

Definition log_write (e : LogEntry) (s : ServerGame) : ServerGame :=
  with_log (fun l => l ++ [e]) s.

Definition chat_join (user : loc) (channel : string) (s : ServerGame)
  : ServerGame :=
  with_chat_members (fun l => l ++ [(user, channel)]) s.

(** [new]: the next free identity. *)
Definition alloc (s : ServerGame) : loc * ServerGame :=
  (nextObject s, with_nextObject S s).

(** Modelled from the spec: GameState.addPlayer is not part of this file; it
    registers the player in the roster. *)
Definition GameState_addPlayer (p : loc) (s : ServerGame) : ServerGame :=
  with_state_players (fun l => l ++ [p]) s.

(** Modelled from the spec: GameState.removePlayer is not part of this
    file; it removes the player of the user from the roster. *)
Definition GameState_removePlayer (user : loc) (s : ServerGame) : ServerGame :=
  with_state_players
    (filter (fun p => ServerPlayer.getUser (players s !!! p) ≠ user)) s.

(** Modelled from the spec: ServerMap.addEntity is not part of this file; it
    adds the entity to the entity table. *)
Definition ServerMap_addEntity (e : loc) (s : ServerGame) : ServerGame :=
  with_map_entities (fun l => l ++ [e]) s.

(** Modelled from the spec: ServerMap.removeEntity is not part of this
    file; afterwards the entity is absent from the entity table. *)
Definition ServerMap_removeEntity (e : loc) (s : ServerGame) : ServerGame :=
  with_map_entities (filter (fun e' => e' ≠ e)) s.

(** Modelled from the spec: ServerMap.addChunkView is not part of this
    file; it registers the view with the map. *)
Definition ServerMap_addChunkView (v : loc) (s : ServerGame) : ServerGame :=
  with_map_chunkViews (fun l => l ++ [v]) s.

(** Modelled from the spec: ServerMap.removeChunkView is not part of this
    file; it unregisters the view from the map. *)
Definition ServerMap_removeChunkView (v : loc) (s : ServerGame) : ServerGame :=
  with_map_chunkViews (filter (fun v' => v' ≠ v)) s.

(** Modelled from the spec: the block store behind ChunkView.setBlock is
    not part of this file; a cell holds an opaque block-data value, empty
    (zero) until written. *)
Definition getBlock (s : ServerGame) (x y z : Z) : Z :=
  default 0 (map_blocks s !! (x, y, z)).

(** Modelled from the spec: ChunkView.setBlock is not part of this file; the
    view performs the write and reports whether the stored value changed. *)
Definition ChunkView_setBlock (v : loc) (x y z blockData : Z)
  (s : ServerGame) : bool * ServerGame :=
  (negb (getBlock s x y z =? blockData),
   with_map_blocks <[(x, y, z) := blockData]> s).

(** Modelled from the spec: ChunkView.addObserver is not part of this file;
    the view keeps its observers in order. *)
Definition ChunkView_addObserver (v : loc) (o : ServerMapObserver.t)
  (s : ServerGame) : ServerGame :=
  with_views
    (fun h => <[v := ChunkView.set_observers
                       (ChunkView.observers (h !!! v) ++ [o]) (h !!! v)]> h) s.

(** Modelled from the spec: ChunkView.initialize is not part of this file;
    it centres the view on the given position. *)
Definition ChunkView_initialize (v : loc) (center : Vec3.t)
  (s : ServerGame) : ServerGame :=
  with_views
    (fun h => <[v := ChunkView.set_center (Some center) (h !!! v)]> h) s.

(** [goog.dispose]: marks the object disposed and leaves its fields. *)
Definition dispose_view (v : loc) (s : ServerGame) : ServerGame :=
  with_views (fun h => <[v := ChunkView.set_disposed true (h !!! v)]> h) s.

Definition dispose_player (p : loc) (s : ServerGame) : ServerGame :=
  with_players
    (fun h => <[p := ServerPlayer.set_disposed true (h !!! p)]> h) s.

(** Field writes through an identity. *)
Definition update_user (u : loc) (f : User.t -> User.t) (s : ServerGame)
  : ServerGame :=
  with_users (fun h => <[u := f (h !!! u)]> h) s.

Definition update_player (p : loc) (f : ServerPlayer.t -> ServerPlayer.t)
  (s : ServerGame) : ServerGame :=
  with_players (fun h => <[p := f (h !!! p)]> h) s.

Definition update_entity (e : loc) (f : Entity.t -> Entity.t)
  (s : ServerGame) : ServerGame :=
  with_entities (fun h => <[e := f (h !!! e)]> h) s.

(** ** The constructor

    [nextEntityId_] starts at zero and the tables are empty.  The user
    objects, the connected users, the registered block types and the stored
    blocks belong to collaborators and are handed in. *)
Definition ServerGame_new (us : gmap loc User.t) (connected : list loc)
  (blockSet : gset Z) (blocks : gmap (Z * Z * Z) Z) : ServerGame :=
  {| users := us; players := ∅; entities := ∅; views := ∅;
     nextObject := 0%nat; session_users := connected; session_sent := [];
     chat_members := []; map_entities := []; map_chunkViews := [];
     map_blockSet := blockSet; map_blocks := blocks; state_players := [];
     nextEntityId_ := 0; log := [] |}.

(** ** update *)

(** [(frame.time * 1000) | 0] *)
Definition frameMillis (frame : Frame) : Z :=
  ToInt32 (number_mul (frame_time frame) (number_of_Z 1000)).

(** One round of the first loop of the broadcast: an entity whose latest
    state was not sent is stamped, pushed and marked. *)
Definition collectState (frame : Frame)
  (acc : list EntityState.t * ServerGame) (e : loc)
  : list EntityState.t * ServerGame :=
  let '(entityStates, s) := acc in
  let entity := entities s !!! e in
  if negb (Entity.hasSentLatestState entity) then
    let st := EntityState.set_time (frameMillis frame) (Entity.state entity) in
    (entityStates ++ [st],
     update_entity e
       (fun en => Entity.set_hasSentLatestState true (Entity.set_state st en))
       s)
  else acc.

(** One round of the second loop: acknowledge the player's sequence number
    and send the packet if there is anything to confirm or to update. *)
Definition sendPosition (entityStates : list EntityState.t)
  (s : ServerGame) (p : loc) : ServerGame :=
  let player := players s !!! p in
  let '(needsSequenceUpdate, sequence, s) :=
    match ServerPlayer.movement player with
    | Some movement =>
        (negb (ServerMovement.lastSequence movement
                 =? ServerMovement.lastSequenceSent movement),
         ServerMovement.lastSequence movement,
         update_player p
           (ServerPlayer.set_movement
              (Some (ServerMovement.set_lastSequenceSent
                       (ServerMovement.lastSequence movement) movement)))
           s)
    | None => (false, -1, s)
    end in
  if negb (length entityStates =? 0)%nat || needsSequenceUpdate then
    session_send (EntityPosition sequence entityStates)
      (Some (ServerPlayer.getUser player)) s
  else s.

(** The tick up to the broadcast: networking, player movement, state
    updates.  The three calls belong to other files and are parameters; the
    player loop runs over the roster as the poll leaves it. *)
Definition advance (ext : Externals) (frame : Frame) (s : ServerGame)
  : ServerGame :=
  let s := session_poll ext s in
  let s := foldl (fun s p => ServerPlayer_update ext frame p s) s
             (state_players s) in
  GameState_update ext frame s.

(** The broadcast of pending updates: the state it leaves and the entity
    states it collected. *)
Definition collectStates (frame : Frame) (s : ServerGame)
  : list EntityState.t * ServerGame :=
  foldl (collectState frame) ([], s) (map_entities s).

Definition broadcast (frame : Frame) (s : ServerGame) : ServerGame :=
  let '(entityStates, s) := collectStates frame s in
  foldl (sendPosition entityStates) s (state_players s).

Definition update (ext : Externals) (frame : Frame) (s : ServerGame)
  : ServerGame :=
  broadcast frame (advance ext frame s).

(** ** handleUserConnect *)

(** [entity.player ? entity.player.getUser().wireId : 0xFF] *)
Definition ownerWireId (s : ServerGame) (entity : Entity.t) : Z :=
  match Entity.player entity with
  | Some p => User.wireId (users s !!! ServerPlayer.getUser (players s !!! p))
  | None => 255
  end.

Definition entityCreateData (s : ServerGame) (e : loc) : Packet :=
  let entity := entities s !!! e in
  EntityCreate (Entity.id entity) (Entity.flags entity) (ownerWireId s entity)
    (EntityState.position (Entity.state entity))
    (EntityState.rotation (Entity.state entity))
    (EntityState.velocity (Entity.state entity)).

Definition handleUserConnect (ext : Externals) (user : loc) (s : ServerGame)
  : ServerGame :=
  let s := log_write (ClientConnected (User.sessionId (users s !!! user))) s in
  (* Create player: it has no entity, view or controller yet *)
  let '(player, s) := alloc s in
  let s := with_players
             <[player := ServerPlayer.make user None None None false]> s in
  let s := update_user user (User.set_data (Some player)) s in
  let s := GameState_addPlayer player s in
  (* Add to chat channels *)
  let s := chat_join user "main" s in
  (* Pick a spawn position *)
  let spawnPosition := Vec3.createFloat32FromValues 0 80 0 in
  (* Create view *)
  let '(view, s) := alloc s in
  let s := with_views
             <[view := ChunkView.make (HIGH_CHUNK_RADIUS_XZ ext) None [] false]>
             s in
  let s := ServerMap_addChunkView view s in
  let s := update_player player (ServerPlayer.set_view (Some view)) s in
  (* Setup observer *)
  let s := ChunkView_addObserver view (ServerMapObserver.make player view) s in
  (* Initialize view *)
  let s := ChunkView_initialize view spawnPosition s in
  (* Send all existing entities *)
  let s := foldl (fun s e => session_send (entityCreateData s e) (Some user) s)
             s (map_entities s) in
  (* Create entity: [new Entity(this.nextEntityId_++)] *)
  let id := nextEntityId_ s in
  let s := with_nextEntityId_ (fun n => n + 1) s in
  let '(entity, s) := alloc s in
  let s := with_entities
             <[entity := Entity.make id 0 None (Entity_initialState ext)
                           (Entity_initialSent ext)]> s in
  let s := ServerMap_addEntity entity s in
  let s := update_entity entity
             (fun en => Entity.set_state
                          (EntityState.set_position spawnPosition
                             (Entity.state en)) en) s in
  (* Entangle entity and user *)
  let s := update_entity entity (Entity.set_flags (USER_CONTROLLED ext)) s in
  let s := update_entity entity (Entity.set_player (Some player)) s in
  let s := update_player player (ServerPlayer.set_entity (Some entity)) s in
  (* Setup movement controller *)
  let movement :=
    ServerMovement.attach entity
      (ServerMovement.make view None (ServerMovement_initialSequence ext)
         (ServerMovement_initialSequenceSent ext) []) in
  let s := update_player player (ServerPlayer.set_movement (Some movement)) s in
  (* Broadcast new entity *)
  let s := session_send (entityCreateData s entity) None s in
  (* Signal player ready *)
  session_send ReadyPlayer (Some user) s.

(** ** handleUserDisconnect *)

Definition handleUserDisconnect (user : loc) (s : ServerGame) : ServerGame :=
  let s :=
    log_write (ClientDisconnected (User.sessionId (users s !!! user))) s in
  match User.data (users s !!! user) with
  | None => s
  | Some player =>
      (* Delete entity *)
      let s :=
        match ServerPlayer.entity (players s !!! player) with
        | Some entity =>
            let s := ServerMap_removeEntity entity s in
            session_send (EntityDelete (Entity.id (entities s !!! entity)))
              None s
        | None => s
        end in
      (* Remove view *)
      let s :=
        match ServerPlayer.view (players s !!! player) with
        | Some view =>
            let s := ServerMap_removeChunkView view s in
            let s := dispose_view view s in
            update_player player (ServerPlayer.set_view None) s
        | None => s
        end in
      (* Remove from roster *)
      let s := GameState_removePlayer user s in
      dispose_player player s
  end.

(** ** setBlock *)

Definition setBlock (user : loc) (x y z blockData : Z) (s : ServerGame)
  : bool * ServerGame :=
  match User.data (users s !!! user) with
  | None => (false, s)
  | Some player =>
      match ServerPlayer.view (players s !!! player) with
      | None => (false, s)
      | Some view =>
          (* Validate block type *)
          if negb (blockData =? 0)
             && negb (bool_decide (sar blockData 8 ∈ map_blockSet s)) then
            (false, log_write UnknownBlockType s)
          else
            (* Set *)
            let '(changed, s) := ChunkView_setBlock view x y z blockData s in
            (* Broadcast update, if it changed *)
            let s := if changed
                     then session_send (SetBlock x y z blockData) None s
                     else s in
            (true, s)
      end
  end.

(** ** movePlayer

    [user.data] is read as a non-null player; reading [movement] off an
    empty slot raises a TypeError. *)
Inductive Completion (A : Type) :=
| Normal (a : A)
| TypeError.
Arguments Normal {A} a.
Arguments TypeError {A}.

Definition movePlayer (user : loc) (commands : list MoveCommand.t)
  (s : ServerGame) : Completion (bool * ServerGame) :=
  match User.data (users s !!! user) with
  | None => TypeError
  | Some player =>
      let s :=
        match ServerPlayer.movement (players s !!! player) with
        | Some movement =>
            update_player player
              (ServerPlayer.set_movement
                 (Some (ServerMovement.queueCommands commands movement))) s
        | None => s
        end in
      Normal (true, s)
  end.

(** ** Reading a run *)

(** The sends recorded between two states of one run. *)
Definition sentSince (before after : ServerGame)
  : list (Packet * option loc) :=
  drop (length (session_sent before)) (session_sent after).

Definition isPositionFor (u : loc) (m : Packet * option loc) : bool :=
  match m with
  | (EntityPosition _ _, Some u') => bool_decide (u' = u)
  | _ => false
  end.

(** The number of EntityPosition packets addressed to user [u]. *)
Fixpoint positionPackets (u : loc) (l : list (Packet * option loc)) : nat :=
  match l with
  | [] => 0%nat
  | m :: l => ((if isPositionFor u m then 1 else 0) + positionPackets u l)%nat
  end.

(** The player's sequence state is unacknowledged. *)
Definition unacknowledged (player : ServerPlayer.t) : Prop :=
  exists movement,
    ServerPlayer.movement player = Some movement /\
    ServerMovement.lastSequence movement
      <> ServerMovement.lastSequenceSent movement.

(** The entity's latest state was not sent. *)
Definition dirty (s : ServerGame) (e : loc) : Prop :=
  Entity.hasSentLatestState (entities s !!! e) = false.

Global Instance dirty_dec s e : Decision (dirty s e).
Proof. unfold dirty. apply _. Defined.

(** The sequence number a position packet for the player carries: the
    controller's [lastSequence], or -1 without a controller. *)
Definition ackSequence (player : ServerPlayer.t) : Z :=
  match ServerPlayer.movement player with
  | Some movement => ServerMovement.lastSequence movement
  | None => -1
  end.

(** Whether a position packet goes to the player: there are entity states
    to report, or the player's sequence state is unacknowledged. *)
Definition needsPacket (entityStates : list EntityState.t)
  (player : ServerPlayer.t) : bool :=
  negb (length entityStates =? 0)%nat
  || match ServerPlayer.movement player with
     | Some movement =>
         negb (ServerMovement.lastSequence movement
                 =? ServerMovement.lastSequenceSent movement)
     | None => false
     end.

(** What the broadcast sends for one player of the roster. *)
Definition positionOut (entityStates : list EntityState.t) (s : ServerGame)
  (p : loc) : list (Packet * option loc) :=
  let player := players s !!! p in
  if needsPacket entityStates player
  then [(EntityPosition (ackSequence player) entityStates,
         Some (ServerPlayer.getUser player))]
  else [].

(** An entity after the broadcast stamped it. *)
Definition stamped (frame : Frame) (entity : Entity.t) : Entity.t :=
  Entity.set_hasSentLatestState true
    (Entity.set_state
       (EntityState.set_time (frameMillis frame) (Entity.state entity))
       entity).

(** The player's controller, if any, has acknowledged all it processed. *)
Definition acknowledged (player : ServerPlayer.t) : Prop :=
  match ServerPlayer.movement player with
  | Some movement =>
      ServerMovement.lastSequenceSent movement
      = ServerMovement.lastSequence movement
  | None => True
  end.

(** The entity the player of a user controls, by its id. *)
Definition entityIdOf (s : ServerGame) (user : loc) : option Z :=
  match User.data (users s !!! user) with
  | Some p =>
      match ServerPlayer.entity (players s !!! p) with
      | Some e => Some (Entity.id (entities s !!! e))
      | None => None
      end
  | None => None
  end.

(** The shape the roster and the entity table have in every state the
    handlers produce when each user is connected at most once at a time:
    no player and no entity is listed twice, listed objects were allocated,
    and a user has at most one player in the roster. *)
Definition tables_ok (s : ServerGame) : Prop :=
  NoDup (state_players s)
  /\ NoDup (map_entities s)
  /\ (forall p, p ∈ state_players s -> (p < nextObject s)%nat)
  /\ (forall e, e ∈ map_entities s -> (e < nextObject s)%nat)
  /\ (forall p q, p ∈ state_players s -> q ∈ state_players s ->
        ServerPlayer.getUser (players s !!! p)
        = ServerPlayer.getUser (players s !!! q) -> p = q).

(** The user has no player in the roster. *)
Definition absent (user : loc) (s : ServerGame) : Prop :=
  forall p, p ∈ state_players s ->
            ServerPlayer.getUser (players s !!! p) <> user.

(** Connections and disconnections, as the net service hands them to the
    game. *)
Inductive Event :=
| Connect (user : loc)
| Disconnect (user : loc).

Definition handleEvent (ext : Externals) (s : ServerGame) (ev : Event)
  : ServerGame :=
  match ev with
  | Connect user => handleUserConnect ext user s
  | Disconnect user => handleUserDisconnect user s
  end.

(** The ids given to the entities created along a run, in creation order. *)
Fixpoint assignedIds (ext : Externals) (evs : list Event) (s : ServerGame)
  : list (option Z) :=
  match evs with
  | [] => []
  | ev :: evs =>
      let s' := handleEvent ext s ev in
      match ev with
      | Connect user => entityIdOf s' user :: assignedIds ext evs s'
      | Disconnect _ => assignedIds ext evs s'
      end
  end.

Fixpoint connects (evs : list Event) : nat :=
  match evs with
  | [] => 0%nat
  | Connect _ :: evs => S (connects evs)
  | Disconnect _ :: evs => connects evs
  end.

(** ** A small server used in the examples

    Two users, A and B, known to the session; block types 1 and 2
    registered; nothing arrives from the network and nothing moves during a
    tick. *)
Definition quiet : Externals :=
  {| session_poll := fun s => s;
     ServerPlayer_update := fun _ _ s => s;
     GameState_update := fun _ s => s;
     HIGH_CHUNK_RADIUS_XZ := 8;
     USER_CONTROLLED := 1;
     Entity_initialState := inhabitant;
     Entity_initialSent := false;
     ServerMovement_initialSequence := -1;
     ServerMovement_initialSequenceSent := -1 |}.

Definition userA : loc := 0%nat.
Definition userB : loc := 1%nat.

Definition twoUsers : gmap loc User.t :=
  <[userA := User.make "a" 0 None]> (<[userB := User.make "b" 1 None]> ∅).

Definition server0 : ServerGame :=
  ServerGame_new twoUsers [userA; userB] {[ 1; 2 ]} ∅.

(** A connected; then B connected as well. *)
Definition serverA : ServerGame := handleUserConnect quiet userA server0.
Definition serverAB : ServerGame := handleUserConnect quiet userB serverA.

(** A's controller has processed the commands up to sequence 7 and the
    acknowledgment went out in an earlier tick; A's entity has a state that
    was not sent yet. *)
Definition serverAcked : ServerGame :=
  update_player 0%nat
    (ServerPlayer.set_movement
       (Some (ServerMovement.make 1%nat (Some 2%nat) 7 7 [])))
    serverA.

(** A tick one second after the start, and one after 2147484 seconds (a
    little under 25 days). *)
Definition frameEarly : Frame := {| frame_time := number_of_Z 1 |}.
Definition frameLate : Frame := {| frame_time := number_of_Z 2147484 |}.

(** A world-driven entity in the table of a server without players. *)
Definition serverEmpty : ServerGame :=
  with_map_entities (fun _ => [0%nat])
    (with_entities
       <[0%nat := Entity.make 0 0 None inhabitant false]>
       (with_nextObject S server0)).

Arguments handleUserConnect : simpl never.
Arguments handleUserDisconnect : simpl never.
Arguments update : simpl never.
Arguments broadcast : simpl never.
Arguments advance : simpl never.
Arguments collectState : simpl never.
Arguments sendPosition : simpl never.

(** ** Requests

    The calls the session, the net service and the game loop make into the
    game.  A [movePlayer] that raises leaves the state as it was: the read
    that raises comes before any write. *)
Inductive Request :=
| ReqConnect (user : loc)
| ReqDisconnect (user : loc)
| ReqSetBlock (user : loc) (x y z blockData : Z)
| ReqMove (user : loc) (commands : list MoveCommand.t)
| ReqTick (frame : Frame).

Definition serve (ext : Externals) (s : ServerGame) (r : Request)
  : ServerGame :=
  match r with
  | ReqConnect user => handleUserConnect ext user s
  | ReqDisconnect user => handleUserDisconnect user s
  | ReqSetBlock user x y z blockData => snd (setBlock user x y z blockData s)
  | ReqMove user commands =>
      match movePlayer user commands s with
      | Normal (_, s') => s'
      | TypeError => s
      end
  | ReqTick frame => update ext frame s
  end.

(** Every connect of the run is for a user that has no player in the roster
    at that moment. *)
Fixpoint admissible (ext : Externals) (s : ServerGame) (rs : list Request)
  : Prop :=
  match rs with
  | [] => True
  | r :: rs =>
      match r with
      | ReqConnect user => absent user s
      | _ => True
      end
      /\ admissible ext (serve ext s r) rs
  end.

(** The ids of the entities of the table, in table order. *)
Definition entityIds (s : ServerGame) : list Z :=
  map (fun e => Entity.id (entities s !!! e)) (map_entities s).

(** No two entities of the table share an id, and every id in the table
    was handed out by the counter. *)
Definition ids_ok (s : ServerGame) : Prop :=
  NoDup (entityIds s)
  /\ 0 <= nextEntityId_ s
  /\ (forall e, e ∈ map_entities s ->
        0 <= Entity.id (entities s !!! e) < nextEntityId_ s)
  /\ (forall e, e ∈ map_entities s -> (e < nextObject s)%nat).

(** Players and entities are entangled one to one: a roster player is the
    player in its user's data slot and controls an entity of the table; an
    entity of the table is user controlled and is the entity of a roster
    player; the entity a player holds points back at that player. *)
Definition linked (ext : Externals) (s : ServerGame) : Prop :=
  tables_ok s
  /\ (forall p, p ∈ state_players s ->
        User.data (users s !!! ServerPlayer.getUser (players s !!! p))
        = Some p)
  /\ (forall p, p ∈ state_players s ->
        exists e, ServerPlayer.entity (players s !!! p) = Some e
                  /\ e ∈ map_entities s)
  /\ (forall e, e ∈ map_entities s ->
        Entity.flags (entities s !!! e) = USER_CONTROLLED ext
        /\ exists p, p ∈ state_players s
                     /\ ServerPlayer.entity (players s !!! p) = Some e)
  /\ (forall p e, ServerPlayer.entity (players s !!! p) = Some e ->
        Entity.player (entities s !!! e) = Some p /\ (e < nextObject s)%nat)
  /\ (forall u p, User.data (users s !!! u) = Some p ->
        ServerPlayer.getUser (players s !!! p) = u /\ (p < nextObject s)%nat).

(** Two states agree on everything the two invariants read. *)
Definition same_links (s s' : ServerGame) : Prop :=
  users s' = users s
  /\ state_players s' = state_players s
  /\ map_entities s' = map_entities s
  /\ nextObject s' = nextObject s
  /\ nextEntityId_ s' = nextEntityId_ s
  /\ (forall p, ServerPlayer.getUser (players s' !!! p)
                = ServerPlayer.getUser (players s !!! p)
                /\ ServerPlayer.entity (players s' !!! p)
                   = ServerPlayer.entity (players s !!! p))
  /\ (forall e, Entity.id (entities s' !!! e) = Entity.id (entities s !!! e)
                /\ Entity.flags (entities s' !!! e)
                   = Entity.flags (entities s !!! e)
                /\ Entity.player (entities s' !!! e)
                   = Entity.player (entities s !!! e)).

(** A player after its round of the broadcast loop: the controller, if
    any, has [lastSequenceSent] set to [lastSequence]. *)
Definition acknowledge (player : ServerPlayer.t) : ServerPlayer.t :=
  match ServerPlayer.movement player with
  | Some movement =>
      ServerPlayer.set_movement
        (Some (ServerMovement.set_lastSequenceSent
                 (ServerMovement.lastSequence movement) movement))
        player
  | None => player
  end.

(** The fields no loop of the broadcast writes: all but the entity store,
    the player store and the send record. *)
Definition untouched (s s' : ServerGame) : Prop :=
  users s' = users s /\ views s' = views s
  /\ nextObject s' = nextObject s /\ session_users s' = session_users s
  /\ chat_members s' = chat_members s /\ map_entities s' = map_entities s
  /\ map_chunkViews s' = map_chunkViews s /\ map_blockSet s' = map_blockSet s
  /\ map_blocks s' = map_blocks s /\ state_players s' = state_players s
  /\ nextEntityId_ s' = nextEntityId_ s /\ log s' = log s.

(** A tick in which the player update moves the player's entity: the
    entity the player holds gets a state that was not sent yet.  Nothing
    arrives from the network and the state update does nothing. *)
Definition moving : Externals :=
  {| session_poll := fun s => s;
     ServerPlayer_update :=
       fun _ p s =>
         match ServerPlayer.entity (players s !!! p) with
         | Some e => update_entity e (Entity.set_hasSentLatestState false) s
         | None => s
         end;
     GameState_update := fun _ s => s;
     HIGH_CHUNK_RADIUS_XZ := 8;
     USER_CONTROLLED := 1;
     Entity_initialState := inhabitant;
     Entity_initialSent := false;
     ServerMovement_initialSequence := -1;
     ServerMovement_initialSequenceSent := -1 |}.

(** A is connected and one tick has gone by: A's entity is marked sent and
    A's controller is acknowledged. *)
Definition serverSettled : ServerGame := update quiet frameEarly serverA.

(** A run with every kind of request on the example server. *)
Definition busyRun : list Request :=
  [ReqConnect userA; ReqTick frameEarly; ReqConnect userB;
   ReqSetBlock userB 1 2 3 261; ReqMove userA [MoveCommand.make 5];
   ReqTick frameLate; ReqDisconnect userA; ReqDisconnect userA;
   ReqConnect userA].

(** * Properties *)

(** ** Sends are appended *)

Lemma sentSince_app (s s' : ServerGame) (l : list (Packet * option loc)) :
  session_sent s' = session_sent s ++ l -> sentSince s s' = l.
Proof.
  intros H. unfold sentSince. rewrite H. apply drop_app_length.
Qed.

Lemma sentSince_refl (s s' : ServerGame) :
  session_sent s' = session_sent s -> sentSince s s' = [].
Proof.
  intros H. apply sentSince_app. rewrite H. symmetry. apply app_nil_r.
Qed.

(** ** setBlock *)

Lemma getBlock_insert (s : ServerGame) (x y z d : Z) :
  getBlock (with_map_blocks <[(x, y, z) := d]> s) x y z = d.
Proof.
  unfold getBlock. simpl. rewrite lookup_insert_eq. reflexivity.
Qed.

(** The type validation, as a proposition. *)
Lemma validation_fails_iff (blockData : Z) (s : ServerGame) :
  negb (blockData =? 0)
  && negb (bool_decide (sar blockData 8 ∈ map_blockSet s)) = true
  <-> blockData <> 0 /\ sar blockData 8 ∉ map_blockSet s.
Proof.
  rewrite andb_true_iff, !negb_true_iff, Z.eqb_neq, bool_decide_eq_false.
  reflexivity.
Qed.

(** C3: [setBlock] returns false exactly when the user has no player, or
    the player has no chunk view, or the block data is non-zero and its type
    identifier [blockData >> 8] is not a registered block type; whenever it
    returns false nothing is sent and no block is written; block data zero
    always passes the type validation. *)
Theorem setBlock_rejects (user : loc) (x y z blockData : Z) (s : ServerGame) :
  let r := setBlock user x y z blockData s in
  (fst r = false <->
     User.data (users s !!! user) = None
     \/ (exists p, User.data (users s !!! user) = Some p
                   /\ ServerPlayer.view (players s !!! p) = None)
     \/ (blockData <> 0 /\ sar blockData 8 ∉ map_blockSet s))
  /\ (fst r = false ->
      session_sent (snd r) = session_sent s
      /\ map_blocks (snd r) = map_blocks s)
  /\ (forall p v,
        User.data (users s !!! user) = Some p ->
        ServerPlayer.view (players s !!! p) = Some v ->
        fst (setBlock user x y z 0 s) = true).
Proof.
  unfold setBlock.
  destruct (User.data (users s !!! user)) as [p|] eqn:Hp; simpl.
  2:{ split; [|split]; [tauto | tauto | intros ? ? [=]]. }
  destruct (ServerPlayer.view (players s !!! p)) as [v|] eqn:Hv; simpl.
  2:{ split; [|split].
      - split; [|reflexivity]. intros _. right; left. eauto.
      - tauto.
      - intros ? ? [= <-]. rewrite Hv. intros [=]. }
  pose proof (validation_fails_iff blockData s) as Hval.
  destruct (negb (blockData =? 0)
            && negb (bool_decide (sar blockData 8 ∈ map_blockSet s))) eqn:Hb.
  - simpl. split; [|split].
    + split; [|reflexivity]. intros _. right; right. apply Hval. reflexivity.
    + tauto.
    + intros ? ? [= <-]. rewrite Hv. intros _. reflexivity.
  - simpl. split; [|split].
    + split; [intros [=]|].
      intros [[=] | [(q & [= <-] & Hq) | Hbad]].
      * rewrite Hv in Hq. discriminate.
      * apply Hval in Hbad. discriminate.
    + intros [=].
    + intros ? ? [= <-]. rewrite Hv. intros _. reflexivity.
Qed.

(** C6: for a user with a player and a view and valid block data,
    [setBlock] returns true and sends one SetBlock packet to all connected
    users exactly when the view reports a change; so an edit that stores the
    value the cell already holds sends nothing, and an edit that changes the
    stored value is broadcast. *)
Theorem setBlock_broadcasts_changes (user : loc) (x y z blockData : Z)
  (s : ServerGame) (p v : loc) :
  User.data (users s !!! user) = Some p ->
  ServerPlayer.view (players s !!! p) = Some v ->
  blockData = 0 \/ sar blockData 8 ∈ map_blockSet s ->
  let r := setBlock user x y z blockData s in
  fst r = true
  /\ sentSince s (snd r)
     = (if fst (ChunkView_setBlock v x y z blockData s)
        then [(SetBlock x y z blockData, None)] else [])
  /\ getBlock (snd r) x y z = blockData
  /\ (getBlock s x y z = blockData -> sentSince s (snd r) = [])
  /\ (getBlock s x y z <> blockData ->
      sentSince s (snd r) = [(SetBlock x y z blockData, None)]).
Proof.
  intros Hp Hv Hvalid. unfold setBlock. rewrite Hp, Hv.
  assert (negb (blockData =? 0)
          && negb (bool_decide (sar blockData 8 ∈ map_blockSet s)) = false)
    as ->.
  { apply not_true_iff_false. rewrite validation_fails_iff.
    intros [Hnz Hnot]. destruct Hvalid; [congruence | contradiction]. }
  unfold ChunkView_setBlock.
  destruct (getBlock s x y z =? blockData) eqn:Heq; simpl.
  - apply Z.eqb_eq in Heq. repeat split.
    + apply sentSince_refl. reflexivity.
    + apply getBlock_insert.
    + intros _. apply sentSince_refl. reflexivity.
    + intros Hne. contradiction.
  - apply Z.eqb_neq in Heq. repeat split.
    + apply sentSince_app. reflexivity.
    + apply getBlock_insert.
    + intros He. contradiction.
    + intros _. apply sentSince_app. reflexivity.
Qed.

(** ** movePlayer *)

(** C8, as the code has it: for every user whose data slot holds a player,
    [movePlayer] returns true; with a movement controller attached the
    commands are appended to its queue, and without one the state is left as
    it was. *)
Theorem movePlayer_queues (user : loc) (commands : list MoveCommand.t)
  (s : ServerGame) (p : loc) :
  User.data (users s !!! user) = Some p ->
  exists s',
    movePlayer user commands s = Normal (true, s')
    /\ match ServerPlayer.movement (players s !!! p) with
       | Some movement =>
           ServerPlayer.movement (players s' !!! p)
           = Some (ServerMovement.set_commands
                     (ServerMovement.commands movement ++ commands) movement)
           /\ s' = update_player p
                     (ServerPlayer.set_movement
                        (Some (ServerMovement.queueCommands commands movement)))
                     s
       | None => s' = s
       end.
Proof.
  intros Hp. unfold movePlayer. rewrite Hp.
  destruct (ServerPlayer.movement (players s !!! p)) as [m|] eqn:Hm.
  - eexists. split; [reflexivity|]. split; [|reflexivity].
    unfold update_player. simpl. rewrite lookup_total_insert_eq. reflexivity.
  - eexists. split; reflexivity.
Qed.

(** C8, as stated, fails: a user the connection handler has not run for has
    no player, and [movePlayer] raises instead of returning true. *)
Lemma movePlayer_without_player :
  movePlayer userB [MoveCommand.make 5] serverA = TypeError.
Proof. reflexivity. Qed.

(** ** handleUserConnect *)

(** The catch-up loop only appends to the send record. *)
Lemma catchUp_fold (user : option loc) (l : list loc) (s : ServerGame) :
  foldl (fun s e => session_send (entityCreateData s e) user s) s l
  = with_session_sent
      (fun sent => sent ++ map (fun e => (entityCreateData s e, user)) l) s.
Proof.
  revert s. induction l as [|e l IH]; intros s; simpl.
  - destruct s; unfold with_session_sent; simpl.
    rewrite app_nil_r. reflexivity.
  - rewrite IH. unfold session_send, with_session_sent; simpl.
    rewrite <- app_assoc. reflexivity.
Qed.

Lemma wireId_set_data (h : gmap loc User.t) (user u : loc)
  (d : option loc) :
  User.wireId (<[user := User.set_data d (h !!! user)]> h !!! u)
  = User.wireId (h !!! u).
Proof.
  destruct (decide (user = u)) as [->|Hne].
  - rewrite lookup_total_insert_eq. reflexivity.
  - rewrite lookup_total_insert_ne by assumption. reflexivity.
Qed.

Ltac unfold_collaborators :=
  unfold update_player, update_entity, update_user, ChunkView_initialize,
    ChunkView_addObserver, ServerMap_addEntity, ServerMap_addChunkView,
    ServerMap_removeEntity, ServerMap_removeChunkView, GameState_addPlayer,
    GameState_removePlayer, dispose_view, dispose_player, chat_join,
    log_write, session_send, ServerMovement.attach.

Ltac connect_unfold :=
  unfold handleUserConnect, alloc; cbn -[Vec3.createFloat32FromValues];
  rewrite catchUp_fold; unfold_collaborators;
  cbn -[Vec3.createFloat32FromValues];
  repeat (rewrite ?lookup_total_insert_eq, ?insert_insert_eq;
          cbn -[Vec3.createFloat32FromValues]).

Section Connect.
Context (ext : Externals) (user : loc) (s : ServerGame).

Let player : loc := nextObject s.
Let view : loc := S (nextObject s).
Let entity : loc := S (S (nextObject s)).
Let spawnPosition : Vec3.t := Vec3.createFloat32FromValues 0 80 0.

Lemma connect_nextEntityId_ :
  nextEntityId_ (handleUserConnect ext user s) = nextEntityId_ s + 1.
Proof. connect_unfold. reflexivity. Qed.

Lemma connect_map_entities :
  map_entities (handleUserConnect ext user s) = map_entities s ++ [entity].
Proof. connect_unfold. reflexivity. Qed.

Lemma connect_state_players :
  state_players (handleUserConnect ext user s) = state_players s ++ [player].
Proof. connect_unfold. reflexivity. Qed.

Lemma connect_session_users :
  session_users (handleUserConnect ext user s) = session_users s.
Proof. connect_unfold. reflexivity. Qed.

Lemma connect_users :
  users (handleUserConnect ext user s)
  = <[user := User.set_data (Some player) (users s !!! user)]> (users s).
Proof. connect_unfold. reflexivity. Qed.

Lemma connect_players :
  players (handleUserConnect ext user s)
  = <[player :=
        ServerPlayer.make user (Some entity) (Some view)
          (Some (ServerMovement.make view (Some entity)
                   (ServerMovement_initialSequence ext)
                   (ServerMovement_initialSequenceSent ext) []))
          false]> (players s).
Proof. connect_unfold. reflexivity. Qed.

Lemma connect_entities :
  entities (handleUserConnect ext user s)
  = <[entity :=
        Entity.make (nextEntityId_ s) (USER_CONTROLLED ext) (Some player)
          (EntityState.set_position spawnPosition (Entity_initialState ext))
          (Entity_initialSent ext)]> (entities s).
Proof. connect_unfold. reflexivity. Qed.

(** Who owns an entity is read the same way before the catch-up loop and in
    the state the handler leaves: the handler keeps every wire id and the
    user of every player. *)
Lemma connect_wireId (u : loc) :
  User.wireId (users (handleUserConnect ext user s) !!! u)
  = User.wireId (users s !!! u).
Proof.
  rewrite connect_users. apply wireId_set_data.
Qed.

Lemma connect_entityIdOf :
  entityIdOf (handleUserConnect ext user s) user = Some (nextEntityId_ s).
Proof.
  unfold entityIdOf.
  rewrite connect_users, lookup_total_insert_eq. cbn.
  rewrite connect_players, lookup_total_insert_eq. cbn.
  rewrite connect_entities, lookup_total_insert_eq. reflexivity.
Qed.

Lemma connect_session_sent :
  session_sent (handleUserConnect ext user s)
  = session_sent s
    ++ map (fun e =>
              (EntityCreate (Entity.id (entities s !!! e))
                 (Entity.flags (entities s !!! e))
                 (ownerWireId (handleUserConnect ext user s)
                    (entities s !!! e))
                 (EntityState.position (Entity.state (entities s !!! e)))
                 (EntityState.rotation (Entity.state (entities s !!! e)))
                 (EntityState.velocity (Entity.state (entities s !!! e))),
               Some user))
         (map_entities s)
    ++ [(EntityCreate (nextEntityId_ s) (USER_CONTROLLED ext)
           (User.wireId (users s !!! user)) spawnPosition
           (EntityState.rotation (Entity_initialState ext))
           (EntityState.velocity (Entity_initialState ext)), None);
        (ReadyPlayer, Some user)].
Proof.
  assert (forall en,
    ownerWireId (handleUserConnect ext user s) en
    = match Entity.player en with
      | Some p =>
          User.wireId
            (users s !!!
               ServerPlayer.getUser
                 (<[player := ServerPlayer.make user None (Some view) None
                                false]> (players s) !!! p))
      | None => 255
      end) as Howner.
  { intros en. unfold ownerWireId. destruct (Entity.player en) as [p|]; [|done].
    rewrite connect_wireId, connect_players.
    destruct (decide (player = p)) as [->|Hne].
    - rewrite !lookup_total_insert_eq. reflexivity.
    - rewrite !lookup_total_insert_ne by assumption. reflexivity. }
  transitivity
    (session_sent s
     ++ map (fun e =>
               (EntityCreate (Entity.id (entities s !!! e))
                  (Entity.flags (entities s !!! e))
                  (match Entity.player (entities s !!! e) with
                   | Some p =>
                       User.wireId
                         (users s !!!
                            ServerPlayer.getUser
                              (<[player := ServerPlayer.make user None
                                             (Some view) None false]>
                                 (players s) !!! p))
                   | None => 255
                   end)
                  (EntityState.position (Entity.state (entities s !!! e)))
                  (EntityState.rotation (Entity.state (entities s !!! e)))
                  (EntityState.velocity (Entity.state (entities s !!! e))),
                Some user))
          (map_entities s)
     ++ [(EntityCreate (nextEntityId_ s) (USER_CONTROLLED ext)
            (User.wireId (users s !!! user)) spawnPosition
            (EntityState.rotation (Entity_initialState ext))
            (EntityState.velocity (Entity_initialState ext)), None);
         (ReadyPlayer, Some user)]).
  2:{ f_equal. f_equal. apply map_ext. intros e. rewrite Howner. reflexivity. }
  clear Howner. connect_unfold.
  rewrite <- !app_assoc. simpl. f_equal. f_equal.
  - apply map_ext. intros e. unfold entityCreateData, ownerWireId. simpl.
    destruct (Entity.player (entities s !!! e)) as [p|]; [|reflexivity].
    rewrite wireId_set_data.
    rewrite lookup_total_insert_eq, insert_insert_eq. reflexivity.
  - unfold entityCreateData, ownerWireId. cbn -[Vec3.createFloat32FromValues].
    repeat (rewrite ?lookup_total_insert_eq, ?insert_insert_eq;
            cbn -[Vec3.createFloat32FromValues]).
    reflexivity.
Qed.

End Connect.

(** C7: [handleUserConnect] sends, in this order, one EntityCreate per
    entity of the table to the connecting user only (owner wire id 0xFF for
    an entity without a player), then one EntityCreate for the new entity,
    which has the next id, the USER_CONTROLLED flag and the spawn position,
    to all connected users, then ReadyPlayer to the connecting user only.
    With two users: A gets entity 0 and B gets entity 1; B is sent the
    catch-up for entity 0 before its ReadyPlayer, and the EntityCreate for
    entity 1 reaches both A and B. *)
Theorem handleUserConnect_packets (ext : Externals) (user : loc)
  (s : ServerGame) :
  let s' := handleUserConnect ext user s in
  let spawnPosition := Vec3.createFloat32FromValues 0 80 0 in
  let rotation := EntityState.rotation (Entity_initialState ext) in
  let velocity := EntityState.velocity (Entity_initialState ext) in
  sentSince s s'
  = map (fun e =>
           (EntityCreate (Entity.id (entities s !!! e))
              (Entity.flags (entities s !!! e))
              (ownerWireId s' (entities s !!! e))
              (EntityState.position (Entity.state (entities s !!! e)))
              (EntityState.rotation (Entity.state (entities s !!! e)))
              (EntityState.velocity (Entity.state (entities s !!! e))),
            Some user))
      (map_entities s)
    ++ [(EntityCreate (nextEntityId_ s) (USER_CONTROLLED ext)
           (User.wireId (users s !!! user)) spawnPosition rotation velocity,
         None);
        (ReadyPlayer, Some user)]
  /\ (forall e, Entity.player (entities s !!! e) = None ->
                ownerWireId s' (entities s !!! e) = 255)
  /\ entityIdOf s' user = Some (nextEntityId_ s)
  /\ let sA := handleUserConnect ext userA server0 in
     let sB := handleUserConnect ext userB sA in
     entityIdOf sA userA = Some 0
     /\ entityIdOf sB userB = Some 1
     /\ sentSince server0 sA
        = [(EntityCreate 0 (USER_CONTROLLED ext) 0 spawnPosition rotation
              velocity, None);
           (ReadyPlayer, Some userA)]
     /\ sentSince sA sB
        = [(EntityCreate 0 (USER_CONTROLLED ext) 0 spawnPosition rotation
              velocity, Some userB);
           (EntityCreate 1 (USER_CONTROLLED ext) 1 spawnPosition rotation
              velocity, None);
           (ReadyPlayer, Some userB)]
     /\ recipients (session_users sB)
          (EntityCreate 1 (USER_CONTROLLED ext) 1 spawnPosition rotation
             velocity, None)
        = [userA; userB].
Proof.
  intros s' spawnPosition rotation velocity.
  split; [|split; [|split]].
  - apply sentSince_app. subst s'. rewrite connect_session_sent. reflexivity.
  - intros e He. unfold ownerWireId. rewrite He. reflexivity.
  - apply connect_entityIdOf.
  - intros sA sB.
    split; [apply connect_entityIdOf|].
    split; [subst sB; rewrite connect_entityIdOf; subst sA;
            rewrite connect_nextEntityId_; reflexivity|].
    split; [|split].
    + apply sentSince_app. subst sA. rewrite connect_session_sent.
      reflexivity.
    + apply sentSince_app. subst sB. rewrite connect_session_sent.
      reflexivity.
    + reflexivity.
Qed.

(** ** handleUserDisconnect keeps the id counter *)

Lemma disconnect_nextEntityId_ (user : loc) (s : ServerGame) :
  nextEntityId_ (handleUserDisconnect user s) = nextEntityId_ s.
Proof.
  unfold handleUserDisconnect.
  destruct (User.data _) as [p|]; [|reflexivity].
  cbn.
  destruct (ServerPlayer.entity _) as [e|];
    destruct (ServerPlayer.view _) as [v|]; reflexivity.
Qed.

(** ** Entity ids *)

Lemma assignedIds_from (ext : Externals) (evs : list Event) (s : ServerGame) :
  assignedIds ext evs s
  = map (fun k => Some (nextEntityId_ s + Z.of_nat k)) (seq 0 (connects evs)).
Proof.
  revert s. induction evs as [|[user|user] evs IH]; intros s; simpl.
  - reflexivity.
  - rewrite connect_entityIdOf, IH, connect_nextEntityId_.
    rewrite Z.add_0_r. f_equal.
    rewrite <- seq_shift, map_map. apply map_ext. intros k. f_equal. lia.
  - rewrite IH, disconnect_nextEntityId_. reflexivity.
Qed.

(** C4: along every sequence of connects and disconnects from the
    constructed server, the k-th entity created has id k-1; so the ids are
    strictly increasing in creation order and none is given twice, whatever
    was deleted in between. *)
Theorem entity_ids_sequential (ext : Externals) (evs : list Event)
  (us : gmap loc User.t) (connected : list loc) (blockSet : gset Z)
  (blocks : gmap (Z * Z * Z) Z) :
  let ids := assignedIds ext evs (ServerGame_new us connected blockSet blocks) in
  ids = map (fun k => Some (Z.of_nat k)) (seq 0 (connects evs))
  /\ (forall i j a b,
        (i < j)%nat -> ids !! i = Some (Some a) -> ids !! j = Some (Some b) ->
        a < b).
Proof.
  intros ids.
  assert (ids = map (fun k => Some (Z.of_nat k)) (seq 0 (connects evs))) as Hids.
  { subst ids. rewrite assignedIds_from. reflexivity. }
  split; [exact Hids|].
  intros i j a b Hij Hi Hj. rewrite Hids in Hi, Hj.
  rewrite list_lookup_fmap in Hi, Hj.
  destruct (seq 0 (connects evs) !! i) as [ki|] eqn:Hki; [|discriminate].
  destruct (seq 0 (connects evs) !! j) as [kj|] eqn:Hkj; [|discriminate].
  apply lookup_seq in Hki as [-> _]. apply lookup_seq in Hkj as [-> _].
  simpl in Hi, Hj. injection Hi as <-. injection Hj as <-. lia.
Qed.

(** ** handleUserDisconnect *)

(** The first call for a user whose player owns an entity: the entity leaves
    the table and one EntityDelete for its id is broadcast. *)
Lemma disconnect_removes_entity (user : loc) (s : ServerGame) (p e : loc) :
  User.data (users s !!! user) = Some p ->
  ServerPlayer.entity (players s !!! p) = Some e ->
  let s' := handleUserDisconnect user s in
  (e ∉ map_entities s')
  /\ sentSince s s' = [(EntityDelete (Entity.id (entities s !!! e)), None)].
Proof.
  intros Hp He s'. subst s'. unfold handleUserDisconnect.
  cbn. rewrite Hp. cbn. rewrite He.
  unfold_collaborators. cbn.
  destruct (ServerPlayer.view (players s !!! p)) as [v|]; cbn.
  - split.
    + rewrite list_elem_of_filter. tauto.
    + apply sentSince_app. reflexivity.
  - split.
    + rewrite list_elem_of_filter. tauto.
    + apply sentSince_app. reflexivity.
Qed.

(** The handler clears the player's view slot, but neither the user's data
    slot nor the player's entity slot. *)
Lemma disconnect_keeps_slots (user : loc) (s : ServerGame) (p e : loc) :
  User.data (users s !!! user) = Some p ->
  ServerPlayer.entity (players s !!! p) = Some e ->
  let s' := handleUserDisconnect user s in
  User.data (users s' !!! user) = Some p
  /\ ServerPlayer.entity (players s' !!! p) = Some e
  /\ ServerPlayer.view (players s' !!! p) = None
  /\ entities s' = entities s.
Proof.
  intros Hp He s'. subst s'. unfold handleUserDisconnect.
  cbn. rewrite Hp. cbn. rewrite He.
  unfold_collaborators. cbn.
  destruct (ServerPlayer.view (players s !!! p)) as [v|] eqn:Hv; cbn.
  - rewrite !lookup_total_insert_eq. cbn. rewrite He. auto.
  - rewrite !lookup_total_insert_eq. cbn. rewrite He, Hv. auto.
Qed.

(** So a second call for the same user broadcasts the EntityDelete again. *)
Lemma disconnect_again_sends_again (user : loc) (s : ServerGame) (p e : loc) :
  User.data (users s !!! user) = Some p ->
  ServerPlayer.entity (players s !!! p) = Some e ->
  let s' := handleUserDisconnect user s in
  sentSince s' (handleUserDisconnect user s')
  = [(EntityDelete (Entity.id (entities s !!! e)), None)].
Proof.
  intros Hp He s'.
  destruct (disconnect_keeps_slots user s p e Hp He) as (Hp' & He' & _ & Hent).
  fold s' in Hp', He', Hent.
  destruct (disconnect_removes_entity user s' p e Hp' He') as [_ Hsent].
  rewrite Hsent, Hent. reflexivity.
Qed.

(** C1 at a connected user: A connects to the fresh server and
    disconnects; the first call removes A's entity from the table and
    broadcasts EntityDelete for id 0 once.  A second call for A is not a
    no-op: it broadcasts EntityDelete for id 0 a second time. *)
Theorem handleUserDisconnect_twice (ext : Externals) :
  let s1 := handleUserConnect ext userA server0 in
  let s2 := handleUserDisconnect userA s1 in
  let s3 := handleUserDisconnect userA s2 in
  entityIdOf s1 userA = Some 0
  /\ map_entities s1 = [2%nat]
  /\ map_entities s2 = []
  /\ sentSince s1 s2 = [(EntityDelete 0, None)]
  /\ sentSince s2 s3 = [(EntityDelete 0, None)].
Proof.
  intros s1 s2 s3. subst s1 s2 s3.
  repeat split; vm_compute; reflexivity.
Qed.

(** ** update: the scan of the entity table *)

Section Scan.
Context (frame : Frame).

Lemma collectState_frame (acc : list EntityState.t) (s : ServerGame)
  (e : loc) :
  let r := collectState frame (acc, s) e in
  players (snd r) = players s
  /\ users (snd r) = users s
  /\ state_players (snd r) = state_players s
  /\ map_entities (snd r) = map_entities s
  /\ session_sent (snd r) = session_sent s.
Proof.
  unfold collectState.
  destruct (negb (Entity.hasSentLatestState (entities s !!! e)));
    simpl; auto.
Qed.

Lemma collectState_entities (acc : list EntityState.t) (s : ServerGame)
  (e e' : loc) :
  entities (snd (collectState frame (acc, s) e)) !!! e'
  = if decide (e' = e /\ dirty s e')
    then stamped frame (entities s !!! e') else entities s !!! e'.
Proof.
  unfold collectState, dirty.
  destruct (Entity.hasSentLatestState (entities s !!! e)) eqn:He; simpl.
  - destruct (decide _) as [[-> Hd]|]; [congruence | reflexivity].
  - unfold update_entity; simpl.
    destruct (decide (e' = e)) as [->|Hne].
    + rewrite lookup_total_insert_eq.
      destruct (decide _) as [|Hn]; [reflexivity | tauto].
    + rewrite lookup_total_insert_ne by congruence.
      destruct (decide _) as [[? _]|]; [contradiction | reflexivity].
Qed.

Lemma collectState_states (acc : list EntityState.t) (s : ServerGame)
  (e : loc) :
  fst (collectState frame (acc, s) e)
  = acc ++ (if decide (dirty s e)
            then [EntityState.set_time (frameMillis frame)
                    (Entity.state (entities s !!! e))]
            else []).
Proof.
  unfold collectState.
  destruct (decide (dirty s e)) as [Hd|Hd]; unfold dirty in Hd.
  - rewrite Hd. reflexivity.
  - apply not_false_is_true in Hd. rewrite Hd. simpl.
    symmetry. apply app_nil_r.
Qed.

(** The scan over a list of entities, from any accumulator. *)
Lemma scan_frame (l : list loc) (acc : list EntityState.t) (s : ServerGame) :
  let r := foldl (collectState frame) (acc, s) l in
  players (snd r) = players s
  /\ users (snd r) = users s
  /\ state_players (snd r) = state_players s
  /\ map_entities (snd r) = map_entities s
  /\ session_sent (snd r) = session_sent s.
Proof.
  revert acc s. induction l as [|e l IH]; intros acc s; simpl; [auto|].
  destruct (collectState frame (acc, s) e) as [acc1 s1] eqn:H1.
  pose proof (collectState_frame acc s e) as Hf. cbv zeta in Hf.
  rewrite H1 in Hf. simpl in Hf.
  destruct Hf as (<- & <- & <- & <- & <-). apply IH.
Qed.

Lemma scan_entities (l : list loc) (acc : list EntityState.t)
  (s : ServerGame) (e : loc) :
  entities (snd (foldl (collectState frame) (acc, s) l)) !!! e
  = if decide (e ∈ l /\ dirty s e)
    then stamped frame (entities s !!! e) else entities s !!! e.
Proof.
  revert acc s. induction l as [|a l IH]; intros acc s; cbn [foldl].
  - cbn [snd]. destruct (decide _) as [[H _]|]; [inversion H | reflexivity].
  - destruct (collectState frame (acc, s) a) as [acc1 s1] eqn:H1.
    rewrite IH.
    pose proof (collectState_entities acc s a e) as He.
    rewrite H1 in He. cbn [snd] in He.
    assert (dirty s1 e <-> dirty s e /\ e <> a) as Hd1.
    { unfold dirty. rewrite He.
      destruct (decide (e = a /\ dirty s e)) as [[-> Hd]|Hn]; cbn.
      - split; [discriminate | tauto].
      - unfold dirty in Hn. destruct (decide (e = a)) as [->|]; tauto. }
    destruct (decide (e ∈ l /\ dirty s1 e)) as [[Hin Hd]|Hn].
    + apply Hd1 in Hd as [Hd Hne].
      rewrite He, (decide_False (P := e = a /\ dirty s e)) by tauto.
      rewrite decide_True; [reflexivity|]. split; [by right | assumption].
    + rewrite He.
      destruct (decide (e = a /\ dirty s e)) as [[-> Hd]|Hn'].
      * rewrite decide_True; [reflexivity|]. split; [by left | assumption].
      * destruct (decide (e ∈ a :: l /\ dirty s e)) as [[Hin Hd]|];
          [|reflexivity].
        exfalso. apply elem_of_cons in Hin as [->|Hin]; [tauto|].
        apply Hn. split; [assumption|]. apply Hd1.
        split; [assumption|]. intros ->. tauto.
Qed.

(** Every entity of the scanned list is marked sent afterwards. *)
Lemma scan_marks (l : list loc) (acc : list EntityState.t) (s : ServerGame)
  (e : loc) :
  e ∈ l ->
  Entity.hasSentLatestState
    (entities (snd (foldl (collectState frame) (acc, s) l)) !!! e) = true.
Proof.
  intros Hin. rewrite scan_entities.
  destruct (decide _) as [|Hn]; [reflexivity|].
  unfold dirty in Hn.
  destruct (Entity.hasSentLatestState (entities s !!! e)); [reflexivity|].
  tauto.
Qed.

(** Every state the scan collects carries the frame's time. *)
Lemma scan_states_time (l : list loc) (acc : list EntityState.t)
  (s : ServerGame) :
  Forall (fun st => EntityState.time st = frameMillis frame) acc ->
  Forall (fun st => EntityState.time st = frameMillis frame)
    (fst (foldl (collectState frame) (acc, s) l)).
Proof.
  revert acc s. induction l as [|a l IH]; intros acc s Hacc; simpl.
  - assumption.
  - destruct (collectState frame (acc, s) a) as [acc1 s1] eqn:H1.
    apply IH.
    pose proof (collectState_states acc s a) as Hs.
    rewrite H1 in Hs. simpl in Hs. subst acc1.
    apply Forall_app. split; [assumption|].
    destruct (decide _); repeat constructor.
Qed.

(** The scan collects nothing exactly when no listed entity is dirty. *)
Lemma scan_states_length (l : list loc) (acc : list EntityState.t)
  (s : ServerGame) :
  (length acc <= length (fst (foldl (collectState frame) (acc, s) l)))%nat.
Proof.
  revert acc s. induction l as [|a l IH]; intros acc s; simpl; [lia|].
  destruct (collectState frame (acc, s) a) as [acc1 s1] eqn:H1.
  pose proof (collectState_states acc s a) as Hs.
  rewrite H1 in Hs. simpl in Hs.
  etransitivity; [|apply IH]. subst acc1. rewrite length_app. lia.
Qed.

Lemma scan_states_nil (l : list loc) (s : ServerGame) :
  fst (foldl (collectState frame) ([], s) l) = []
  <-> forall e, e ∈ l -> ~ dirty s e.
Proof.
  revert s. induction l as [|a l IH]; intros s; simpl.
  - split; [|reflexivity]. intros _ e He. inversion He.
  - destruct (collectState frame ([], s) a) as [acc1 s1] eqn:H1.
    pose proof (collectState_states [] s a) as Hs.
    rewrite H1 in Hs. simpl in Hs.
    assert (forall e, dirty s1 e <-> dirty s e /\ ~ (e = a /\ dirty s e))
      as Hd1.
    { intros e. unfold dirty.
      pose proof (collectState_entities [] s a e) as He.
      rewrite H1 in He. simpl in He. rewrite He.
      destruct (decide (e = a /\ dirty s e)) as [Hy|Hn]; simpl;
        unfold dirty in *; [|tauto].
      split; [discriminate | tauto]. }
    destruct (decide (dirty s a)) as [Hda|Hda].
    + subst acc1. split.
      * intros Hnil. exfalso.
        pose proof (scan_states_length l
                      [EntityState.set_time (frameMillis frame)
                         (Entity.state (entities s !!! a))] s1) as Hlen.
        rewrite Hnil in Hlen. simpl in Hlen. lia.
      * intros Hall. exfalso. apply (Hall a); [by left | assumption].
    + subst acc1. rewrite IH. split.
      * intros Hall e He. apply elem_of_cons in He as [->|He]; [assumption|].
        intros Hde. apply (Hall e He). apply Hd1. split; [assumption|].
        intros [-> ?]. contradiction.
      * intros Hall e He Hde. apply Hd1 in Hde. apply (Hall e); [by right|].
        tauto.
Qed.

End Scan.

Lemma map_filter_ext {A B : Type} (P Q : A -> Prop)
  `{forall x, Decision (P x)} `{forall x, Decision (Q x)}
  (f g : A -> B) (l : list A) :
  (forall x, x ∈ l -> (P x <-> Q x) /\ f x = g x) ->
  map f (filter P l) = map g (filter Q l).
Proof.
  induction l as [|a l IH]; intros Hext; [reflexivity|].
  destruct (Hext a) as [HPQ Hfg]; [by left|].
  rewrite !filter_cons.
  destruct (decide (P a)) as [HP|HP]; destruct (decide (Q a)) as [HQ|HQ];
    try tauto; simpl; rewrite IH by (intros x Hx; apply Hext; by right);
    congruence.
Qed.

Lemma flat_map_ext_elem {A B : Type} (f g : A -> list B) (l : list A) :
  (forall x, x ∈ l -> f x = g x) -> flat_map f l = flat_map g l.
Proof.
  induction l as [|a l IH]; intros Hext; simpl; [reflexivity|].
  rewrite (Hext a) by (by left).
  rewrite IH by (intros x Hx; apply Hext; by right). reflexivity.
Qed.

(** Over a table without repetition the scan collects the stamped states of
    the dirty entities, in table order. *)
Lemma scan_states_NoDup (frame : Frame) (l : list loc)
  (acc : list EntityState.t) (s : ServerGame) :
  NoDup l ->
  fst (foldl (collectState frame) (acc, s) l)
  = acc ++ map (fun e => EntityState.set_time (frameMillis frame)
                           (Entity.state (entities s !!! e)))
             (filter (dirty s) l).
Proof.
  revert acc s. induction l as [|a l IH]; intros acc s Hnd; cbn [foldl].
  - simpl. symmetry. apply app_nil_r.
  - apply NoDup_cons in Hnd as [Hnotin Hnd].
    destruct (collectState frame (acc, s) a) as [acc1 s1] eqn:H1.
    pose proof (collectState_states frame acc s a) as Hs.
    rewrite H1 in Hs. cbn [fst] in Hs.
    assert (forall e, e ∈ l -> entities s1 !!! e = entities s !!! e) as Hsame.
    { intros e He. pose proof (collectState_entities frame acc s a e) as Hent.
      rewrite H1 in Hent. cbn [snd] in Hent. rewrite Hent.
      apply decide_False. intros [-> _]. contradiction. }
    rewrite IH by assumption. subst acc1. rewrite <- app_assoc. f_equal.
    rewrite filter_cons.
    rewrite (map_filter_ext (dirty s1) (dirty s)
               (fun e => EntityState.set_time (frameMillis frame)
                           (Entity.state (entities s1 !!! e)))
               (fun e => EntityState.set_time (frameMillis frame)
                           (Entity.state (entities s !!! e)))).
    + destruct (decide (dirty s a)); reflexivity.
    + intros e He. unfold dirty. rewrite (Hsame e He). tauto.
Qed.

(** ** update: the packets *)

Lemma positionPackets_app (u : loc) (l k : list (Packet * option loc)) :
  positionPackets u (l ++ k)
  = (positionPackets u l + positionPackets u k)%nat.
Proof.
  induction l as [|m l IH]; simpl; [reflexivity|]. rewrite IH. lia.
Qed.

Lemma sendPosition_sent (d : list EntityState.t) (s : ServerGame) (p : loc) :
  session_sent (sendPosition d s p) = session_sent s ++ positionOut d s p.
Proof.
  unfold sendPosition, positionOut, needsPacket, ackSequence.
  destruct (ServerPlayer.movement (players s !!! p)) as [m|]; simpl.
  - destruct (negb (length d =? 0)%nat || _); simpl;
      [reflexivity | symmetry; apply app_nil_r].
  - rewrite orb_false_r.
    destruct (negb (length d =? 0)%nat); simpl;
      [reflexivity | symmetry; apply app_nil_r].
Qed.

Lemma sendPosition_players (d : list EntityState.t) (s : ServerGame)
  (p : loc) :
  players (sendPosition d s p)
  = match ServerPlayer.movement (players s !!! p) with
    | Some m =>
        <[p := ServerPlayer.set_movement
                 (Some (ServerMovement.set_lastSequenceSent
                          (ServerMovement.lastSequence m) m))
                 (players s !!! p)]> (players s)
    | None => players s
    end.
Proof.
  unfold sendPosition.
  destruct (ServerPlayer.movement (players s !!! p)) as [m|]; simpl.
  - destruct (negb (length d =? 0)%nat || _); reflexivity.
  - destruct (negb (length d =? 0)%nat || false); reflexivity.
Qed.

Lemma sendPosition_frame (d : list EntityState.t) (s : ServerGame) (p : loc) :
  entities (sendPosition d s p) = entities s
  /\ map_entities (sendPosition d s p) = map_entities s
  /\ state_players (sendPosition d s p) = state_players s.
Proof.
  unfold sendPosition.
  destruct (ServerPlayer.movement (players s !!! p)) as [m|]; simpl.
  - destruct (negb (length d =? 0)%nat || _); auto.
  - destruct (negb (length d =? 0)%nat || false); auto.
Qed.

Lemma sendPosition_other (d : list EntityState.t) (s : ServerGame)
  (p q : loc) :
  q <> p -> players (sendPosition d s p) !!! q = players s !!! q.
Proof.
  intros Hne. rewrite sendPosition_players.
  destruct (ServerPlayer.movement (players s !!! p)); [|reflexivity].
  apply lookup_total_insert_ne. congruence.
Qed.

(** After its round a player is acknowledged, and rounds of the loop keep
    acknowledged players acknowledged. *)
Lemma sendPosition_acknowledges (d : list EntityState.t) (s : ServerGame)
  (p q : loc) :
  q = p \/ acknowledged (players s !!! q) ->
  acknowledged (players (sendPosition d s p) !!! q).
Proof.
  intros Hq. rewrite sendPosition_players.
  destruct (ServerPlayer.movement (players s !!! p)) as [m|] eqn:Hm.
  - destruct (decide (q = p)) as [->|Hne].
    + rewrite lookup_total_insert_eq. reflexivity.
    + rewrite lookup_total_insert_ne by congruence. tauto.
  - destruct Hq as [->|Hq]; [|assumption].
    unfold acknowledged. rewrite Hm. exact I.
Qed.

Lemma broadcast_loop_frame (d : list EntityState.t) (ps : list loc)
  (s : ServerGame) :
  entities (foldl (sendPosition d) s ps) = entities s
  /\ map_entities (foldl (sendPosition d) s ps) = map_entities s
  /\ state_players (foldl (sendPosition d) s ps) = state_players s.
Proof.
  revert s. induction ps as [|p ps IH]; intros s; cbn [foldl]; [auto|].
  destruct (IH (sendPosition d s p)) as (-> & -> & ->).
  apply sendPosition_frame.
Qed.

Lemma broadcast_loop_acknowledges (d : list EntityState.t) (ps : list loc)
  (s : ServerGame) (q : loc) :
  q ∈ ps \/ acknowledged (players s !!! q) ->
  acknowledged (players (foldl (sendPosition d) s ps) !!! q).
Proof.
  revert s. induction ps as [|p ps IH]; intros s Hq; cbn [foldl].
  - destruct Hq as [Hq|Hq]; [inversion Hq | assumption].
  - apply IH.
    destruct (decide (q ∈ ps)) as [|Hnotin]; [by left|]. right.
    apply sendPosition_acknowledges.
    destruct Hq as [Hq|Hq]; [|by right].
    apply elem_of_cons in Hq as [->|Hq]; [by left | contradiction].
Qed.

(** The packets of the loop are position packets carrying the collected
    states. *)
Lemma broadcast_loop_packets (d : list EntityState.t) (ps : list loc)
  (s : ServerGame) :
  exists out,
    session_sent (foldl (sendPosition d) s ps) = session_sent s ++ out
    /\ Forall (fun m => exists sequence, fst m = EntityPosition sequence d)
         out.
Proof.
  revert s. induction ps as [|p ps IH]; intros s; cbn [foldl].
  - exists []. split; [symmetry; apply app_nil_r | constructor].
  - destruct (IH (sendPosition d s p)) as (out & Hout & Hall).
    exists (positionOut d s p ++ out). split.
    + rewrite Hout, sendPosition_sent, app_assoc. reflexivity.
    + apply Forall_app. split; [|assumption].
      unfold positionOut. destruct (needsPacket _ _); repeat constructor.
      eexists. reflexivity.
Qed.

(** Over a roster without repetition, each player's packet is decided by
    the state the loop starts from. *)
Lemma broadcast_loop_sent (d : list EntityState.t) (ps : list loc)
  (s : ServerGame) :
  NoDup ps ->
  session_sent (foldl (sendPosition d) s ps)
  = session_sent s ++ flat_map (positionOut d s) ps.
Proof.
  revert s. induction ps as [|p ps IH]; intros s Hnd; cbn [foldl flat_map].
  - symmetry. apply app_nil_r.
  - apply NoDup_cons in Hnd as [Hnotin Hnd].
    rewrite IH by assumption. rewrite sendPosition_sent, <- app_assoc.
    f_equal. f_equal. apply flat_map_ext_elem. intros q Hq.
    unfold positionOut. rewrite sendPosition_other; [reflexivity|].
    intros ->. contradiction.
Qed.

Lemma needsPacket_iff (d : list EntityState.t) (player : ServerPlayer.t) :
  needsPacket d player = true <-> d <> [] \/ unacknowledged player.
Proof.
  unfold needsPacket, unacknowledged. rewrite orb_true_iff, negb_true_iff.
  rewrite Nat.eqb_neq, length_zero_iff_nil.
  destruct (ServerPlayer.movement player) as [m|].
  - rewrite negb_true_iff, Z.eqb_neq. split.
    + intros [H|H]; [by left | right; eauto].
    + intros [H|(m' & [= <-] & H)]; [by left | by right].
  - split.
    + intros [H|H]; [by left | discriminate].
    + intros [H|(m' & [=] & _)]. by left.
Qed.

Lemma positionOut_length (d : list EntityState.t) (s : ServerGame) (p : loc) :
  length (positionOut d s p)
  = if needsPacket d (players s !!! p) then 1%nat else 0%nat.
Proof. unfold positionOut. destruct (needsPacket _ _); reflexivity. Qed.

Lemma positionPackets_out (u : loc) (d : list EntityState.t)
  (s : ServerGame) (q : loc) :
  positionPackets u (positionOut d s q)
  = if decide (ServerPlayer.getUser (players s !!! q) = u)
    then length (positionOut d s q) else 0%nat.
Proof.
  unfold positionOut. destruct (needsPacket _ _); simpl.
  - destruct (decide _) as [Hu|Hu].
    + rewrite bool_decide_eq_true_2 by assumption. reflexivity.
    + rewrite bool_decide_eq_false_2 by assumption. reflexivity.
  - destruct (decide _); reflexivity.
Qed.

(** With one player per user, the packets for a user are those of the
    round of that user's player. *)
Lemma positionPackets_roster (d : list EntityState.t) (s : ServerGame)
  (ps : list loc) (p : loc) :
  NoDup ps -> p ∈ ps ->
  (forall q, q ∈ ps ->
     ServerPlayer.getUser (players s !!! q)
     = ServerPlayer.getUser (players s !!! p) -> q = p) ->
  positionPackets (ServerPlayer.getUser (players s !!! p))
    (flat_map (positionOut d s) ps)
  = length (positionOut d s p).
Proof.
  assert (forall ps, p ∉ ps ->
    (forall q, q ∈ ps ->
       ServerPlayer.getUser (players s !!! q)
       = ServerPlayer.getUser (players s !!! p) -> q = p) ->
    positionPackets (ServerPlayer.getUser (players s !!! p))
      (flat_map (positionOut d s) ps) = 0%nat) as Hnone.
  { clear ps. induction ps as [|a ps IH]; intros Hnotin Hinj; [reflexivity|].
    simpl. rewrite positionPackets_app, positionPackets_out.
    apply not_elem_of_cons in Hnotin as [Hne Hnotin].
    rewrite decide_False.
    - apply IH; [assumption|]. intros q Hq. apply Hinj. by right.
    - intros Hu. apply Hne. symmetry. apply Hinj; [by left | assumption]. }
  induction ps as [|a ps IH]; intros Hnd Hin Hinj; [inversion Hin|].
  apply NoDup_cons in Hnd as [Hnotin Hnd].
  simpl. rewrite positionPackets_app, positionPackets_out.
  destruct (decide (a = p)) as [->|Hne].
  - rewrite decide_True by reflexivity.
    rewrite Hnone; [lia | assumption |].
    intros q Hq. apply Hinj. by right.
  - rewrite decide_False.
    + apply elem_of_cons in Hin as [->|Hin]; [contradiction|].
      apply IH; [assumption | assumption |].
      intros q Hq. apply Hinj. by right.
    + intros Hu. apply Hne. apply Hinj; [by left | assumption].
Qed.

(** The broadcast, from the state it starts in. *)
Section Broadcast.
Context (frame : Frame) (s1 : ServerGame).

Let delta : list EntityState.t := fst (collectStates frame s1).
Let s2 : ServerGame := snd (collectStates frame s1).

Lemma broadcast_unfold :
  broadcast frame s1 = foldl (sendPosition delta) s2 (state_players s1).
Proof.
  unfold broadcast. subst delta s2.
  pose proof (scan_frame frame (map_entities s1) [] s1) as Hf.
  cbv zeta in Hf. fold (collectStates frame s1) in Hf.
  destruct (collectStates frame s1) as [d s2']. simpl in *.
  destruct Hf as (_ & _ & -> & _). reflexivity.
Qed.

Lemma scanned_frame :
  players s2 = players s1 /\ users s2 = users s1
  /\ state_players s2 = state_players s1
  /\ map_entities s2 = map_entities s1
  /\ session_sent s2 = session_sent s1.
Proof. apply (scan_frame frame (map_entities s1) [] s1). Qed.

Lemma broadcast_map_entities :
  map_entities (broadcast frame s1) = map_entities s1.
Proof.
  rewrite broadcast_unfold.
  destruct (broadcast_loop_frame delta (state_players s1) s2) as (_ & -> & _).
  apply scanned_frame.
Qed.

Lemma broadcast_entities (e : loc) :
  entities (broadcast frame s1) !!! e
  = if decide (e ∈ map_entities s1 /\ dirty s1 e)
    then stamped frame (entities s1 !!! e) else entities s1 !!! e.
Proof.
  rewrite broadcast_unfold.
  destruct (broadcast_loop_frame delta (state_players s1) s2) as (-> & _).
  apply scan_entities.
Qed.

Lemma broadcast_sent :
  NoDup (state_players s1) ->
  sentSince s1 (broadcast frame s1)
  = flat_map (positionOut delta s1) (state_players s1).
Proof.
  intros Hnd. apply sentSince_app.
  rewrite broadcast_unfold, broadcast_loop_sent by assumption.
  destruct scanned_frame as (Hp & _ & _ & _ & ->). f_equal.
  apply flat_map_ext_elem. intros p _. unfold positionOut.
  rewrite Hp. reflexivity.
Qed.

Lemma broadcast_packets :
  exists out,
    sentSince s1 (broadcast frame s1) = out
    /\ Forall (fun m => exists sequence, fst m = EntityPosition sequence delta)
         out.
Proof.
  destruct (broadcast_loop_packets delta (state_players s1) s2)
    as (out & Hout & Hall).
  exists out. split; [|assumption].
  apply sentSince_app. rewrite broadcast_unfold, Hout.
  destruct scanned_frame as (_ & _ & _ & _ & ->). reflexivity.
Qed.

Lemma broadcast_acknowledges (p : loc) :
  p ∈ state_players s1 -> acknowledged (players (broadcast frame s1) !!! p).
Proof.
  intros Hp. rewrite broadcast_unfold.
  apply broadcast_loop_acknowledges. by left.
Qed.

Lemma delta_nonempty :
  delta <> [] <-> exists e, e ∈ map_entities s1 /\ dirty s1 e.
Proof.
  subst delta. unfold collectStates. rewrite scan_states_nil. split.
  - intros Hn.
    destruct (decide (Exists (dirty s1) (map_entities s1))) as [Hex|Hno].
    + apply Exists_exists in Hex. exact Hex.
    + exfalso. apply Hn. intros e He Hd. apply Hno.
      apply Exists_exists. eauto.
  - intros (e & He & Hd) Hall. exact (Hall e He Hd).
Qed.

End Broadcast.

(** C2, as the code has it: in one call of [update], a player of the roster
    is sent no or one EntityPosition packet, and one exactly when some
    entity of the table has an unsent state when the scan runs, that is
    after the network poll, the player updates and the state update, or the
    player's controller has [lastSequence != lastSequenceSent] when the
    broadcast starts.  The roster lists each player once and each user has
    one player. *)
Theorem update_position_packets (ext : Externals) (frame : Frame)
  (s : ServerGame) (p : loc) :
  let s1 := advance ext frame s in
  let s' := update ext frame s in
  let user := ServerPlayer.getUser (players s1 !!! p) in
  NoDup (state_players s1) ->
  p ∈ state_players s1 ->
  (forall q, q ∈ state_players s1 ->
     ServerPlayer.getUser (players s1 !!! q) = user -> q = p) ->
  let n := positionPackets user (sentSince s1 s') in
  (n = 0 \/ n = 1)%nat
  /\ (n = 1%nat <->
      (exists e, e ∈ map_entities s1 /\ dirty s1 e)
      \/ unacknowledged (players s1 !!! p)).
Proof.
  intros s1 s' user Hnd Hp Hinj n.
  assert (n = if needsPacket (fst (collectStates frame s1)) (players s1 !!! p)
              then 1%nat else 0%nat) as Hn.
  { subst n s' user. unfold update. fold s1.
    rewrite broadcast_sent by assumption.
    rewrite positionPackets_roster by assumption.
    apply positionOut_length. }
  rewrite <- (delta_nonempty frame s1), <- needsPacket_iff.
  rewrite Hn. destruct (needsPacket _ _).
  - split; [by right | split; reflexivity].
  - split; [by left | split; discriminate].
Qed.

(** C5, as the code has it: over a roster and an entity table without
    repetition, the broadcast sends each player that needs a packet one
    EntityPosition carrying the controller's [lastSequence] (pending or
    not), or -1 when the player has no controller, together with the
    stamped states of all dirty entities; afterwards every roster player
    with a controller has [lastSequenceSent = lastSequence]. *)
Theorem update_position_contents (ext : Externals) (frame : Frame)
  (s : ServerGame) :
  let s1 := advance ext frame s in
  let s' := update ext frame s in
  let delta :=
    map (fun e => EntityState.set_time (frameMillis frame)
                    (Entity.state (entities s1 !!! e)))
      (filter (dirty s1) (map_entities s1)) in
  NoDup (state_players s1) ->
  NoDup (map_entities s1) ->
  sentSince s1 s' = flat_map (positionOut delta s1) (state_players s1)
  /\ (forall p, p ∈ state_players s1 -> acknowledged (players s' !!! p)).
Proof.
  intros s1 s' delta Hps Hes. subst s'. unfold update. fold s1. split.
  - rewrite broadcast_sent by assumption. unfold collectStates.
    rewrite scan_states_NoDup by assumption. reflexivity.
  - intros p Hp. apply broadcast_acknowledges. assumption.
Qed.

(** C9, as the code has it: every entity of the table that is dirty when
    the scan runs gets the state timestamp [(frame.time * 1000) | 0], every
    entity state in a packet of the tick carries that timestamp, and the
    value is the integer part of [frame.time * 1000] reduced to the signed
    32-bit range, so it is the integer part itself whenever that lies
    between -2^31 and 2^31 - 1. *)
Theorem update_stamps_frame_time (ext : Externals) (frame : Frame)
  (s : ServerGame) :
  let s1 := advance ext frame s in
  let s' := update ext frame s in
  let millis := number_mul (frame_time frame) (number_of_Z 1000) in
  (forall e, e ∈ map_entities s1 -> dirty s1 e ->
     EntityState.time (Entity.state (entities s' !!! e)) = ToInt32 millis)
  /\ Forall (fun m =>
               exists sequence states,
                 fst m = EntityPosition sequence states
                 /\ Forall (fun st => EntityState.time st = ToInt32 millis)
                      states)
       (sentSince s1 s')
  /\ ToInt32 millis = wrap32 (default 0 (integerPart millis))
  /\ (forall i, integerPart millis = Some i ->
                - 2 ^ 31 <= i < 2 ^ 31 -> ToInt32 millis = i).
Proof.
  intros s1 s' millis. subst s'. unfold update. fold s1.
  split; [|split; [|split]].
  - intros e He Hd. rewrite broadcast_entities.
    rewrite decide_True by tauto. reflexivity.
  - destruct (broadcast_packets frame s1) as (out & -> & Hall).
    eapply Forall_impl; [exact Hall|].
    intros m (sequence & Hm). exists sequence, (fst (collectStates frame s1)).
    split; [assumption|].
    apply scan_states_time. constructor.
  - reflexivity.
  - intros i Hi Hrange. unfold ToInt32, wrap32. rewrite Hi. simpl default.
    rewrite Z.mod_small by lia. lia.
Qed.

(** C10: when [update] returns every entity of the table is marked sent,
    whether or not a packet went out; a scan run on the state it leaves
    collects nothing; and with no player in the roster the tick sends
    nothing. *)
Theorem update_marks_all_sent (ext : Externals) (frame : Frame)
  (s : ServerGame) :
  let s1 := advance ext frame s in
  let s' := update ext frame s in
  map_entities s' = map_entities s1
  /\ (forall e, e ∈ map_entities s' ->
                Entity.hasSentLatestState (entities s' !!! e) = true)
  /\ (forall frame', fst (collectStates frame' s') = [])
  /\ (state_players s1 = [] -> sentSince s1 s' = []).
Proof.
  intros s1 s'. subst s'. unfold update. fold s1.
  assert (forall e, e ∈ map_entities s1 ->
            Entity.hasSentLatestState (entities (broadcast frame s1) !!! e)
            = true) as Hmarked.
  { intros e He. rewrite broadcast_entities.
    destruct (decide _) as [|Hn]; [reflexivity|]. unfold dirty in Hn.
    destruct (Entity.hasSentLatestState (entities s1 !!! e));
      [reflexivity | tauto]. }
  split; [apply broadcast_map_entities|].
  split; [rewrite broadcast_map_entities; exact Hmarked|].
  split.
  - intros frame'. unfold collectStates. apply scan_states_nil.
    rewrite broadcast_map_entities. intros e He. unfold dirty.
    rewrite (Hmarked e He). discriminate.
  - intros Hnone. rewrite broadcast_sent by (rewrite Hnone; constructor).
    rewrite Hnone. reflexivity.
Qed.

(** ** The roster and the entity table stay well formed *)

Lemma ServerGame_new_tables_ok (us : gmap loc User.t) (connected : list loc)
  (blockSet : gset Z) (blocks : gmap (Z * Z * Z) Z) :
  tables_ok (ServerGame_new us connected blockSet blocks).
Proof.
  unfold tables_ok; simpl.
  split; [apply NoDup_nil_2|]. split; [apply NoDup_nil_2|].
  split; [intros ? H; inversion H|]. split; [intros ? H; inversion H|].
  intros ? ? H; inversion H.
Qed.

Lemma connect_nextObject (ext : Externals) (user : loc) (s : ServerGame) :
  nextObject (handleUserConnect ext user s) = S (S (S (nextObject s))).
Proof. connect_unfold. reflexivity. Qed.

Lemma connect_tables_ok (ext : Externals) (user : loc) (s : ServerGame) :
  tables_ok s -> absent user s -> tables_ok (handleUserConnect ext user s).
Proof.
  intros (Hps & Hes & Hpa & Hea & Hinj) Habs. unfold tables_ok.
  rewrite connect_state_players, connect_map_entities, connect_nextObject,
    connect_players.
  assert (forall p, p ∈ state_players s ->
            <[nextObject s :=
                ServerPlayer.make user (Some (S (S (nextObject s))))
                  (Some (S (nextObject s)))
                  (Some (ServerMovement.make (S (nextObject s))
                           (Some (S (S (nextObject s))))
                           (ServerMovement_initialSequence ext)
                           (ServerMovement_initialSequenceSent ext) []))
                  false]> (players s) !!! p
            = players s !!! p) as Hold.
  { intros p Hp. apply lookup_total_insert_ne. specialize (Hpa p Hp). lia. }
  split; [|split; [|split; [|split]]].
  - apply NoDup_app. split; [assumption|]. split; [|apply NoDup_singleton].
    intros p Hp Hin. apply list_elem_of_singleton in Hin as ->.
    specialize (Hpa _ Hp). lia.
  - apply NoDup_app. split; [assumption|]. split; [|apply NoDup_singleton].
    intros e He Hin. apply list_elem_of_singleton in Hin as ->.
    specialize (Hea _ He). lia.
  - intros p Hp. apply elem_of_app in Hp as [Hp|Hp].
    + specialize (Hpa _ Hp). lia.
    + apply list_elem_of_singleton in Hp as ->. lia.
  - intros e He. apply elem_of_app in He as [He|He].
    + specialize (Hea _ He). lia.
    + apply list_elem_of_singleton in He as ->. lia.
  - intros p q Hp Hq.
    apply elem_of_app in Hp as [Hp|Hp]; apply elem_of_app in Hq as [Hq|Hq].
    + rewrite !Hold by assumption. apply Hinj; assumption.
    + apply list_elem_of_singleton in Hq as ->.
      rewrite (Hold p Hp), lookup_total_insert_eq. simpl.
      intros Hu. exfalso. exact (Habs p Hp Hu).
    + apply list_elem_of_singleton in Hp as ->.
      rewrite (Hold q Hq), lookup_total_insert_eq. simpl.
      intros Hu. exfalso. symmetry in Hu. exact (Habs q Hq Hu).
    + apply list_elem_of_singleton in Hp as ->.
      apply list_elem_of_singleton in Hq as ->. reflexivity.
Qed.

(** What [handleUserDisconnect] does to the tables: both are filtered, no
    object is allocated, and every player keeps its user. *)
Lemma disconnect_tables (user : loc) (s : ServerGame) :
  let s' := handleUserDisconnect user s in
  nextObject s' = nextObject s
  /\ (forall p, p ∈ state_players s' -> p ∈ state_players s)
  /\ (forall e, e ∈ map_entities s' -> e ∈ map_entities s)
  /\ (NoDup (state_players s) -> NoDup (state_players s'))
  /\ (NoDup (map_entities s) -> NoDup (map_entities s'))
  /\ (forall p, ServerPlayer.getUser (players s' !!! p)
                = ServerPlayer.getUser (players s !!! p)).
Proof.
  intros s'. subst s'. unfold handleUserDisconnect. cbn.
  destruct (User.data (users s !!! user)) as [pl|]; [|cbn; tauto].
  assert (forall (h : gmap loc ServerPlayer.t) f p,
            (forall x, ServerPlayer.getUser (f x) = ServerPlayer.getUser x) ->
            ServerPlayer.getUser (<[pl := f (h !!! pl)]> h !!! p)
            = ServerPlayer.getUser (h !!! p)) as Hkeep.
  { intros h f p Hf. destruct (decide (pl = p)) as [->|Hne].
    - rewrite lookup_total_insert_eq. apply Hf.
    - rewrite lookup_total_insert_ne by assumption. reflexivity. }
  cbn.
  destruct (ServerPlayer.entity (players s !!! pl)) as [e|];
    unfold_collaborators; cbn;
    destruct (ServerPlayer.view (players s !!! pl)) as [v|]; cbn;
    (split; [reflexivity|]);
    (split; [intros p Hp; apply list_elem_of_filter in Hp; tauto|]);
    (split; [intros x Hx; try apply list_elem_of_filter in Hx; tauto|]);
    (split; [apply NoDup_filter|]);
    (split; [try apply NoDup_filter; tauto|]);
    intros p; rewrite ?Hkeep by reflexivity; reflexivity.
Qed.

Lemma disconnect_tables_ok (user : loc) (s : ServerGame) :
  tables_ok s -> tables_ok (handleUserDisconnect user s).
Proof.
  intros (Hps & Hes & Hpa & Hea & Hinj).
  destruct (disconnect_tables user s)
    as (Hnext & Hsubp & Hsube & Hndp & Hnde & Huser).
  unfold tables_ok. rewrite Hnext.
  split; [auto|]. split; [auto|]. split; [auto|]. split; [auto|].
  intros p q Hp Hq. rewrite !Huser. apply Hinj; auto.
Qed.

(** Along a run in which a user is only connected while it has no player
    in the roster, the tables stay well formed. *)
Lemma run_tables_ok (ext : Externals) (evs : list Event) (s : ServerGame) :
  tables_ok s ->
  (forall pre user post,
     evs = pre ++ Connect user :: post ->
     absent user (foldl (handleEvent ext) s pre)) ->
  tables_ok (foldl (handleEvent ext) s evs).
Proof.
  revert s. induction evs as [|ev evs IH]; intros s Hok Hfresh; [exact Hok|].
  cbn [foldl]. apply IH.
  - destruct ev as [user|user]; cbn.
    + apply connect_tables_ok; [assumption|]. apply (Hfresh [] user evs).
      reflexivity.
    + apply disconnect_tables_ok. assumption.
  - intros pre user post ->. apply (Hfresh (ev :: pre) user post).
    reflexivity.
Qed.

(** ** The claims at the example server *)

Lemma setBlock_broadcasts_changes_witness :
  let r := setBlock userB 1 2 3 261 serverAB in
  fst r = true
  /\ sentSince serverAB (snd r)
     = (if fst (ChunkView_setBlock 4%nat 1 2 3 261 serverAB)
        then [(SetBlock 1 2 3 261, None)] else [])
  /\ getBlock (snd r) 1 2 3 = 261
  /\ (getBlock serverAB 1 2 3 = 261 -> sentSince serverAB (snd r) = [])
  /\ (getBlock serverAB 1 2 3 <> 261 ->
      sentSince serverAB (snd r) = [(SetBlock 1 2 3 261, None)]).
Proof.
  apply (setBlock_broadcasts_changes userB 1 2 3 261 serverAB 3%nat 4%nat).
  - vm_compute. reflexivity.
  - vm_compute. reflexivity.
  - right. apply (bool_decide_unpack _). vm_compute. exact I.
Defined.

Lemma movePlayer_queues_witness :
  exists s',
    movePlayer userB [MoveCommand.make 5; MoveCommand.make 6] serverAB
    = Normal (true, s')
    /\ match ServerPlayer.movement (players serverAB !!! 3%nat) with
       | Some movement =>
           ServerPlayer.movement (players s' !!! 3%nat)
           = Some (ServerMovement.set_commands
                     (ServerMovement.commands movement
                        ++ [MoveCommand.make 5; MoveCommand.make 6])
                     movement)
           /\ s' = update_player 3%nat
                     (ServerPlayer.set_movement
                        (Some (ServerMovement.queueCommands
                                 [MoveCommand.make 5; MoveCommand.make 6]
                                 movement)))
                     serverAB
       | None => s' = serverAB
       end.
Proof.
  apply (movePlayer_queues userB [MoveCommand.make 5; MoveCommand.make 6]
           serverAB 3%nat).
  vm_compute. reflexivity.
Defined.

Lemma roster_serverAB :
  state_players (advance quiet frameEarly serverAB) = [0%nat; 3%nat].
Proof. vm_compute. reflexivity. Qed.

Lemma update_position_packets_witness :
  let s1 := advance quiet frameEarly serverAB in
  let s' := update quiet frameEarly serverAB in
  let user := ServerPlayer.getUser (players s1 !!! 3%nat) in
  let n := positionPackets user (sentSince s1 s') in
  (n = 0 \/ n = 1)%nat
  /\ (n = 1%nat <->
      (exists e, e ∈ map_entities s1 /\ dirty s1 e)
      \/ unacknowledged (players s1 !!! 3%nat)).
Proof.
  apply (update_position_packets quiet frameEarly serverAB 3%nat).
  - rewrite roster_serverAB. apply (bool_decide_unpack _). vm_compute.
    exact I.
  - rewrite roster_serverAB. apply (bool_decide_unpack _). vm_compute.
    exact I.
  - rewrite roster_serverAB. intros q Hq Hu.
    apply elem_of_cons in Hq as [->|Hq].
    + vm_compute in Hu. discriminate.
    + apply elem_of_cons in Hq as [->|Hq]; [reflexivity | inversion Hq].
Defined.

Lemma update_position_contents_witness :
  let s1 := advance quiet frameEarly serverAB in
  let s' := update quiet frameEarly serverAB in
  let delta :=
    map (fun e => EntityState.set_time (frameMillis frameEarly)
                    (Entity.state (entities s1 !!! e)))
      (filter (dirty s1) (map_entities s1)) in
  sentSince s1 s' = flat_map (positionOut delta s1) (state_players s1)
  /\ (forall p, p ∈ state_players s1 -> acknowledged (players s' !!! p)).
Proof.
  apply (update_position_contents quiet frameEarly serverAB).
  - rewrite roster_serverAB. apply (bool_decide_unpack _). vm_compute.
    exact I.
  - replace (map_entities (advance quiet frameEarly serverAB))
      with [2%nat; 5%nat] by (vm_compute; reflexivity).
    apply (bool_decide_unpack _). vm_compute. exact I.
Defined.

(** C2, as stated, fails: when the tick starts no entity of the table is
    dirty and A's controller has nothing to acknowledge; the player update
    of the tick moves A's entity, the scan finds it dirty, and A is sent one
    EntityPosition packet although the entities dirty at the start of the
    tick are none and A's sequence state is acknowledged when the broadcast
    starts. *)
Lemma update_reports_moves_of_the_tick :
  let s := serverSettled in
  let s1 := advance moving frameEarly s in
  let s' := update moving frameEarly s in
  state_players s1 = [0%nat]
  /\ ServerPlayer.getUser (players s1 !!! 0%nat) = userA
  /\ filter (dirty s) (map_entities s) = []
  /\ ServerPlayer.movement (players s !!! 0%nat)
     = Some (ServerMovement.make 1%nat (Some 2%nat) (-1) (-1) [])
  /\ ServerPlayer.movement (players s1 !!! 0%nat)
     = Some (ServerMovement.make 1%nat (Some 2%nat) (-1) (-1) [])
  /\ filter (dirty s1) (map_entities s1) = [2%nat]
  /\ positionPackets userA (sentSince s1 s') = 1%nat.
Proof. repeat split; vm_compute; reflexivity. Qed.

(** C5, as stated, fails: A's controller has nothing pending
    ([lastSequence = lastSequenceSent = 7]) and A's entity is dirty; the
    packet sent to A carries 7, not the sentinel -1. *)
Lemma update_acknowledges_without_pending :
  let s1 := advance quiet frameEarly serverAcked in
  let s' := update quiet frameEarly serverAcked in
  ServerPlayer.movement (players s1 !!! 0%nat)
  = Some (ServerMovement.make 1%nat (Some 2%nat) 7 7 [])
  /\ exists states,
       sentSince s1 s' = [(EntityPosition 7 states, Some userA)].
Proof.
  split.
  - vm_compute. reflexivity.
  - eexists. vm_compute. reflexivity.
Qed.

(** C9, as stated, fails: at a frame time of 2147484 seconds the integer
    part of [frame.time * 1000] is 2147484000, and the dirty entity is
    stamped -2147483296. *)
Lemma update_timestamp_wraps :
  let s1 := advance quiet frameLate serverA in
  let s' := update quiet frameLate serverA in
  2%nat ∈ map_entities s1
  /\ dirty s1 2%nat
  /\ integerPart (number_mul (frame_time frameLate) (number_of_Z 1000))
     = Some 2147484000
  /\ EntityState.time (Entity.state (entities s' !!! 2%nat)) = -2147483296.
Proof.
  split; [|split; [|split]].
  - apply (bool_decide_unpack _). vm_compute. exact I.
  - vm_compute. reflexivity.
  - vm_compute. reflexivity.
  - vm_compute. reflexivity.
Qed.

(** With an early frame the stamp is the integer part. *)
Example update_timestamp_early :
  let s' := update quiet frameEarly serverA in
  EntityState.time (Entity.state (entities s' !!! 2%nat)) = 1000.
Proof. vm_compute. reflexivity. Qed.

(** A server without players: the dirty entity is marked sent, nothing is
    sent, and the next tick has nothing to report. *)
Example update_without_players :
  let s' := update quiet frameEarly serverEmpty in
  dirty serverEmpty 0%nat
  /\ Entity.hasSentLatestState (entities s' !!! 0%nat) = true
  /\ session_sent s' = []
  /\ session_sent (update quiet frameLate s') = [].
Proof. repeat split; vm_compute; reflexivity. Qed.

(** The scenario of the design document: commands up to sequence 7 were
    processed; the next tick acknowledges 7 to A, and the tick after that,
    with nothing new, sends A nothing. *)
Example update_acknowledges_once :
  let pending :=
    update_player 0%nat
      (ServerPlayer.set_movement
         (Some (ServerMovement.make 1%nat (Some 2%nat) 7 (-1) [])))
      serverA in
  let s1 := update quiet frameEarly pending in
  let s2 := update quiet frameEarly s1 in
  (exists states, session_sent s1
                  = session_sent pending
                    ++ [(EntityPosition 7 states, Some userA)])
  /\ acknowledged (players s1 !!! 0%nat)
  /\ session_sent s2 = session_sent s1.
Proof.
  split; [|split].
  - eexists. vm_compute. reflexivity.
  - vm_compute. reflexivity.
  - vm_compute. reflexivity.
Qed.

(** * Further properties of the handlers *)

(** ** What a connection builds *)

Lemma connect_map_chunkViews (ext : Externals) (user : loc) (s : ServerGame) :
  map_chunkViews (handleUserConnect ext user s)
  = map_chunkViews s ++ [S (nextObject s)].
Proof. connect_unfold. reflexivity. Qed.

Lemma connect_views (ext : Externals) (user : loc) (s : ServerGame) :
  views (handleUserConnect ext user s)
  = <[S (nextObject s) :=
        ChunkView.make (HIGH_CHUNK_RADIUS_XZ ext)
          (Some (Vec3.createFloat32FromValues 0 80 0))
          [ServerMapObserver.make (nextObject s) (S (nextObject s))]
          false]> (views s).
Proof. connect_unfold. reflexivity. Qed.

Lemma connect_chat_members (ext : Externals) (user : loc) (s : ServerGame) :
  chat_members (handleUserConnect ext user s)
  = chat_members s ++ [(user, "main")].
Proof. connect_unfold. reflexivity. Qed.

(** X1: [handleUserConnect] adds exactly one player to the roster, one
    entity to the table and one view to the map, and entangles them: the
    user's data slot holds the new player; the player holds the user, the
    entity, the view and a controller over that view attached to that
    entity; the entity has the next id, the USER_CONTROLLED flag, the spawn
    position and the player as owner; the view is centred on the spawn
    position with one observer for this player; the user joined the chat
    channel main. *)
Theorem handleUserConnect_entangles (ext : Externals) (user : loc)
  (s : ServerGame) :
  let s' := handleUserConnect ext user s in
  let spawnPosition := Vec3.createFloat32FromValues 0 80 0 in
  exists player view entity,
    state_players s' = state_players s ++ [player]
    /\ map_entities s' = map_entities s ++ [entity]
    /\ map_chunkViews s' = map_chunkViews s ++ [view]
    /\ chat_members s' = chat_members s ++ [(user, "main")]
    /\ User.data (users s' !!! user) = Some player
    /\ players s' !!! player
       = ServerPlayer.make user (Some entity) (Some view)
           (Some (ServerMovement.make view (Some entity)
                    (ServerMovement_initialSequence ext)
                    (ServerMovement_initialSequenceSent ext) []))
           false
    /\ entities s' !!! entity
       = Entity.make (nextEntityId_ s) (USER_CONTROLLED ext) (Some player)
           (EntityState.set_position spawnPosition (Entity_initialState ext))
           (Entity_initialSent ext)
    /\ views s' !!! view
       = ChunkView.make (HIGH_CHUNK_RADIUS_XZ ext) (Some spawnPosition)
           [ServerMapObserver.make player view] false.
Proof.
  intros s' spawnPosition. subst s'.
  exists (nextObject s), (S (nextObject s)), (S (S (nextObject s))).
  rewrite connect_state_players, connect_map_entities,
    connect_map_chunkViews, connect_chat_members, connect_users,
    connect_players, connect_entities, connect_views.
  rewrite !lookup_total_insert_eq. repeat split; reflexivity.
Qed.

(** ** What a disconnection does *)

(** The tables after [handleUserDisconnect] for a user with a player. *)
Lemma disconnect_fields (user : loc) (s : ServerGame) (p : loc) :
  User.data (users s !!! user) = Some p ->
  let s' := handleUserDisconnect user s in
  let player := players s !!! p in
  state_players s'
  = filter (fun q => ServerPlayer.getUser (players s !!! q) <> user)
      (state_players s)
  /\ map_entities s'
     = match ServerPlayer.entity player with
       | Some e => filter (fun e' => e' <> e) (map_entities s)
       | None => map_entities s
       end
  /\ map_chunkViews s'
     = match ServerPlayer.view player with
       | Some v => filter (fun v' => v' <> v) (map_chunkViews s)
       | None => map_chunkViews s
       end
  /\ players s'
     = <[p := ServerPlayer.make (ServerPlayer.user player)
                (ServerPlayer.entity player) None
                (ServerPlayer.movement player) true]> (players s)
  /\ views s'
     = match ServerPlayer.view player with
       | Some v => <[v := ChunkView.set_disposed true (views s !!! v)]>
                     (views s)
       | None => views s
       end
  /\ users s' = users s /\ entities s' = entities s
  /\ nextObject s' = nextObject s /\ nextEntityId_ s' = nextEntityId_ s
  /\ map_blocks s' = map_blocks s.
Proof.
  intros Hp s' player. subst s' player. unfold handleUserDisconnect.
  cbn. rewrite Hp. cbn.
  assert (forall (h : gmap loc ServerPlayer.t) (f : ServerPlayer.t -> _)
            (l : list loc),
            (forall x, ServerPlayer.getUser (f x) = ServerPlayer.getUser x) ->
            filter (fun q => ServerPlayer.getUser
                               (<[p := f (h !!! p)]> h !!! q) <> user) l
            = filter (fun q => ServerPlayer.getUser (h !!! q) <> user) l)
    as Hfilter.
  { intros h f l Hf. apply list_filter_iff. intros q.
    destruct (decide (p = q)) as [->|Hne].
    - rewrite lookup_total_insert_eq, Hf. reflexivity.
    - rewrite lookup_total_insert_ne by assumption. reflexivity. }
  destruct (ServerPlayer.entity (players s !!! p)) as [e|] eqn:He;
    unfold_collaborators; cbn;
    destruct (ServerPlayer.view (players s !!! p)) as [v|] eqn:Hv; cbn;
    rewrite ?Hfilter by reflexivity;
    rewrite ?lookup_total_insert_eq, ?insert_insert_eq;
    unfold ServerPlayer.set_disposed, ServerPlayer.set_view; cbn;
    rewrite ?He, ?Hv; repeat split; reflexivity.
Qed.

Lemma disconnect_sent (user : loc) (s : ServerGame) :
  sentSince s (handleUserDisconnect user s)
  = match entityIdOf s user with
    | Some id => [(EntityDelete id, None)]
    | None => []
    end.
Proof.
  unfold entityIdOf, handleUserDisconnect. cbn.
  destruct (User.data (users s !!! user)) as [p|]; cbn.
  2:{ apply sentSince_refl. reflexivity. }
  destruct (ServerPlayer.entity (players s !!! p)) as [e|];
    unfold_collaborators; cbn;
    destruct (ServerPlayer.view (players s !!! p)) as [v|]; cbn;
    first [ apply sentSince_app; reflexivity
          | apply sentSince_refl; reflexivity ].
Qed.

(** X2: [handleUserDisconnect] sends nothing but one EntityDelete, to all
    connected users, for the entity of the user's player; for a user without
    a player, or whose player has no entity, it sends nothing. *)
Theorem handleUserDisconnect_sends (user : loc) (s : ServerGame) :
  sentSince s (handleUserDisconnect user s)
  = match entityIdOf s user with
    | Some id => [(EntityDelete id, None)]
    | None => []
    end.
Proof. apply disconnect_sent. Qed.

(** X3: after [handleUserDisconnect] for a user with a player, no player of
    that user is left in the roster, the player is disposed and has no
    view, its former view is unregistered from the map and disposed, its
    entity is out of the table; the players of other users stay in the
    roster and every other player object is untouched. *)
Theorem handleUserDisconnect_tears_down (user : loc) (s : ServerGame)
  (p : loc) :
  User.data (users s !!! user) = Some p ->
  let s' := handleUserDisconnect user s in
  absent user s'
  /\ ServerPlayer.view (players s' !!! p) = None
  /\ ServerPlayer.disposed (players s' !!! p) = true
  /\ (forall v, ServerPlayer.view (players s !!! p) = Some v ->
                (v ∉ map_chunkViews s')
                /\ ChunkView.disposed (views s' !!! v) = true)
  /\ (forall e, ServerPlayer.entity (players s !!! p) = Some e ->
                e ∉ map_entities s')
  /\ (forall q, q ∈ state_players s ->
                ServerPlayer.getUser (players s !!! q) <> user ->
                q ∈ state_players s')
  /\ (forall q, q <> p -> players s' !!! q = players s !!! q).
Proof.
  intros Hp s'.
  destruct (disconnect_fields user s p Hp)
    as (Hroster & Htable & Hviews & Hplayers & Hstore & _).
  fold s' in Hroster, Htable, Hviews, Hplayers, Hstore.
  assert (forall q, ServerPlayer.getUser (players s' !!! q)
                    = ServerPlayer.getUser (players s !!! q)) as Huser.
  { intros q. rewrite Hplayers. destruct (decide (p = q)) as [->|Hne].
    - rewrite lookup_total_insert_eq. reflexivity.
    - rewrite lookup_total_insert_ne by assumption. reflexivity. }
  split; [|split; [|split; [|split; [|split; [|split]]]]].
  - intros q Hq. rewrite Huser. rewrite Hroster in Hq.
    apply list_elem_of_filter in Hq. tauto.
  - rewrite Hplayers, lookup_total_insert_eq. reflexivity.
  - rewrite Hplayers, lookup_total_insert_eq. reflexivity.
  - intros v Hv. rewrite Hviews, Hstore, Hv. split.
    + rewrite list_elem_of_filter. tauto.
    + rewrite lookup_total_insert_eq. reflexivity.
  - intros e He. rewrite Htable, He. rewrite list_elem_of_filter. tauto.
  - intros q Hq Hu. rewrite Hroster. apply list_elem_of_filter. tauto.
  - intros q Hq. rewrite Hplayers. apply lookup_total_insert_ne. congruence.
Qed.

(** X4: once [handleUserDisconnect] has run for a user, [setBlock] for that
    user returns false and changes nothing, whatever the block data. *)
Theorem setBlock_after_disconnect (user : loc) (x y z blockData : Z)
  (s : ServerGame) :
  let s' := handleUserDisconnect user s in
  setBlock user x y z blockData s' = (false, s').
Proof.
  intros s'. unfold setBlock.
  destruct (User.data (users s !!! user)) as [p|] eqn:Hp.
  - destruct (disconnect_fields user s p Hp)
      as (_ & _ & _ & Hplayers & _ & Husers & _).
    fold s' in Hplayers, Husers. rewrite Husers, Hp, Hplayers.
    rewrite lookup_total_insert_eq. reflexivity.
  - assert (users s' = users s) as ->.
    { subst s'. unfold handleUserDisconnect. cbn. rewrite Hp. reflexivity. }
    rewrite Hp. reflexivity.
Qed.

Lemma filter_snoc_fresh (l : list loc) (x : loc) :
  x ∉ l -> filter (fun y => y <> x) (l ++ [x]) = l.
Proof.
  intros Hx. rewrite filter_app, filter_cons_False, filter_nil, app_nil_r
    by tauto.
  induction l as [|a l IH]; [reflexivity|].
  apply not_elem_of_cons in Hx as [Hne Hx].
  rewrite filter_cons_True by congruence. rewrite IH by assumption.
  reflexivity.
Qed.

(** X5: a connection followed by the disconnection of the same user gives
    back the roster, the entity table and the set of views as they were,
    and broadcasts EntityDelete for the id the connection assigned; the id
    counter stays advanced, so the id is not handed out again.  The user had
    no player in the roster and the listed objects were allocated. *)
Theorem connect_then_disconnect (ext : Externals) (user : loc)
  (s : ServerGame) :
  absent user s ->
  (forall p, p ∈ state_players s -> (p < nextObject s)%nat) ->
  (forall e, e ∈ map_entities s -> (e < nextObject s)%nat) ->
  (forall v, v ∈ map_chunkViews s -> (v < nextObject s)%nat) ->
  let s1 := handleUserConnect ext user s in
  let s2 := handleUserDisconnect user s1 in
  state_players s2 = state_players s
  /\ map_entities s2 = map_entities s
  /\ map_chunkViews s2 = map_chunkViews s
  /\ nextEntityId_ s2 = nextEntityId_ s + 1
  /\ sentSince s1 s2 = [(EntityDelete (nextEntityId_ s), None)].
Proof.
  intros Habs Hpa Hea Hva s1 s2. subst s2 s1.
  set (s1 := handleUserConnect ext user s).
  assert (User.data (users s1 !!! user) = Some (nextObject s)) as Hp.
  { subst s1. rewrite connect_users, lookup_total_insert_eq. reflexivity. }
  assert (ServerPlayer.entity (players s1 !!! nextObject s)
          = Some (S (S (nextObject s)))) as Hent.
  { subst s1. rewrite connect_players, lookup_total_insert_eq. reflexivity. }
  assert (ServerPlayer.view (players s1 !!! nextObject s)
          = Some (S (nextObject s))) as Hview.
  { subst s1. rewrite connect_players, lookup_total_insert_eq. reflexivity. }
  assert (ServerPlayer.getUser (players s1 !!! nextObject s) = user) as Huser.
  { subst s1. rewrite connect_players, lookup_total_insert_eq. reflexivity. }
  assert (forall q, q ∈ state_players s ->
            ServerPlayer.getUser (players s1 !!! q) <> user) as Hothers.
  { intros q Hq. subst s1. rewrite connect_players.
    rewrite lookup_total_insert_ne by (specialize (Hpa q Hq); lia).
    apply Habs. assumption. }
  destruct (disconnect_fields user s1 _ Hp)
    as (Hroster & Htable & Hviews & _ & _ & _ & _ & _ & Hid & _).
  rewrite Hent in Htable. rewrite Hview in Hviews.
  split; [|split; [|split; [|split]]].
  - rewrite Hroster. replace (state_players s1)
      with (state_players s ++ [nextObject s])
      by (symmetry; apply connect_state_players).
    rewrite filter_app, filter_cons_False, filter_nil, app_nil_r by tauto.
    clear -Hothers. revert Hothers. generalize (state_players s).
    intros l Hothers. induction l as [|a l IH]; [reflexivity|].
    rewrite filter_cons_True by (apply Hothers; by left).
    rewrite IH; [reflexivity|]. intros q Hq. apply Hothers. by right.
  - rewrite Htable. replace (map_entities s1)
      with (map_entities s ++ [S (S (nextObject s))])
      by (symmetry; apply connect_map_entities).
    apply filter_snoc_fresh. intros He. specialize (Hea _ He). lia.
  - rewrite Hviews. replace (map_chunkViews s1)
      with (map_chunkViews s ++ [S (nextObject s)])
      by (symmetry; apply connect_map_chunkViews).
    apply filter_snoc_fresh. intros Hv. specialize (Hva _ Hv). lia.
  - rewrite Hid. apply connect_nextEntityId_.
  - rewrite disconnect_sent.
    replace (entityIdOf s1 user) with (Some (nextEntityId_ s))
      by (symmetry; apply connect_entityIdOf).
    reflexivity.
Qed.

(** X13: [handleUserConnect] leaves what was there before: the data slot of
    every other user, the session id and wire id of every user, every
    allocated player, entity and view, the stored blocks, the registered
    block types and the session's users. *)
Theorem handleUserConnect_preserves (ext : Externals) (user : loc)
  (s : ServerGame) :
  let s' := handleUserConnect ext user s in
  (forall u, u <> user -> users s' !!! u = users s !!! u)
  /\ (forall u, User.sessionId (users s' !!! u) = User.sessionId (users s !!! u)
                /\ User.wireId (users s' !!! u) = User.wireId (users s !!! u))
  /\ (forall p, (p < nextObject s)%nat -> players s' !!! p = players s !!! p)
  /\ (forall e, (e < nextObject s)%nat -> entities s' !!! e = entities s !!! e)
  /\ (forall v, (v < nextObject s)%nat -> views s' !!! v = views s !!! v)
  /\ map_blocks s' = map_blocks s
  /\ map_blockSet s' = map_blockSet s
  /\ session_users s' = session_users s.
Proof.
  intros s'. subst s'.
  split; [|split; [|split; [|split; [|split; [|split; [|split]]]]]].
  - intros u Hne. rewrite connect_users.
    apply lookup_total_insert_ne. congruence.
  - intros u. rewrite connect_users.
    destruct (decide (user = u)) as [->|Hne].
    + rewrite lookup_total_insert_eq. split; reflexivity.
    + rewrite lookup_total_insert_ne by assumption. split; reflexivity.
  - intros p Hp. rewrite connect_players. apply lookup_total_insert_ne. lia.
  - intros e He. rewrite connect_entities. apply lookup_total_insert_ne. lia.
  - intros v Hv. rewrite connect_views. apply lookup_total_insert_ne. lia.
  - connect_unfold. reflexivity.
  - connect_unfold. reflexivity.
  - apply connect_session_users.
Qed.

Lemma filter_idem {A : Type} (P : A -> Prop) `{forall x, Decision (P x)}
  (l : list A) :
  filter P (filter P l) = filter P l.
Proof.
  induction l as [|a l IH]; [reflexivity|].
  rewrite filter_cons. destruct (decide (P a)) as [Ha|Ha]; [|exact IH].
  rewrite filter_cons_True by exact Ha. rewrite IH. reflexivity.
Qed.

(** X14: a second [handleUserDisconnect] for the same user changes none of
    the tables: the roster, the entity table and the set of views are as
    the first call left them, and so are the users and the entities. *)
Theorem handleUserDisconnect_tables_idempotent (user : loc) (s : ServerGame) :
  let s1 := handleUserDisconnect user s in
  let s2 := handleUserDisconnect user s1 in
  state_players s2 = state_players s1
  /\ map_entities s2 = map_entities s1
  /\ map_chunkViews s2 = map_chunkViews s1
  /\ users s2 = users s1
  /\ entities s2 = entities s1
  /\ nextEntityId_ s2 = nextEntityId_ s1.
Proof.
  intros s1 s2.
  destruct (User.data (users s !!! user)) as [pl|] eqn:Hpl.
  - destruct (disconnect_fields user s pl Hpl)
      as (Hr1 & Ht1 & Hv1 & Hp1 & _ & Hu1 & _).
    fold s1 in Hr1, Ht1, Hv1, Hp1, Hu1.
    assert (User.data (users s1 !!! user) = Some pl) as Hpl1
      by (rewrite Hu1; exact Hpl).
    destruct (disconnect_fields user s1 pl Hpl1)
      as (Hr2 & Ht2 & Hv2 & _ & _ & Hu2 & He2 & _ & Hn2 & _).
    fold s2 in Hr2, Ht2, Hv2, Hu2, He2, Hn2.
    assert (forall q, ServerPlayer.getUser (players s1 !!! q)
                      = ServerPlayer.getUser (players s !!! q)) as Hgu.
    { intros q. rewrite Hp1. destruct (decide (pl = q)) as [->|Hne].
      - rewrite lookup_total_insert_eq. reflexivity.
      - rewrite lookup_total_insert_ne by assumption. reflexivity. }
    assert (players s1 !!! pl
            = ServerPlayer.make (ServerPlayer.user (players s !!! pl))
                (ServerPlayer.entity (players s !!! pl)) None
                (ServerPlayer.movement (players s !!! pl)) true) as Hpl'.
    { rewrite Hp1. apply lookup_total_insert_eq. }
    rewrite Hpl' in Ht2, Hv2. cbn [ServerPlayer.entity ServerPlayer.view]
      in Ht2, Hv2.
    repeat split; try assumption.
    + rewrite Hr2.
      rewrite (list_filter_iff _
                 (fun q => ServerPlayer.getUser (players s !!! q) <> user))
        by (intros q; rewrite Hgu; reflexivity).
      rewrite Hr1. apply filter_idem.
    + rewrite Ht2, Ht1.
      destruct (ServerPlayer.entity (players s !!! pl));
        [apply filter_idem | reflexivity].
  - assert (users s1 = users s /\ state_players s1 = state_players s
            /\ map_entities s1 = map_entities s
            /\ map_chunkViews s1 = map_chunkViews s) as (Hu & _).
    { subst s1. unfold handleUserDisconnect. cbn. rewrite Hpl. cbn. tauto. }
    subst s2. unfold handleUserDisconnect at 1 2 3 4 5 6. cbn.
    rewrite Hu, Hpl. cbn. tauto.
Qed.

(** * Further properties of update *)

Lemma untouched_refl (s : ServerGame) : untouched s s.
Proof. unfold untouched. tauto. Qed.

Lemma untouched_trans (s1 s2 s3 : ServerGame) :
  untouched s1 s2 -> untouched s2 s3 -> untouched s1 s3.
Proof.
  unfold untouched.
  intros (-> & -> & -> & -> & -> & -> & -> & -> & -> & -> & -> & ->) H.
  exact H.
Qed.

Lemma collectState_untouched (frame : Frame) (acc : list EntityState.t)
  (s : ServerGame) (e : loc) :
  untouched s (snd (collectState frame (acc, s) e))
  /\ players (snd (collectState frame (acc, s) e)) = players s
  /\ session_sent (snd (collectState frame (acc, s) e)) = session_sent s.
Proof.
  unfold collectState.
  destruct (negb (Entity.hasSentLatestState (entities s !!! e))); cbn;
    unfold untouched; cbn; tauto.
Qed.

Lemma scan_untouched (frame : Frame) (l : list loc)
  (acc : list EntityState.t) (s : ServerGame) :
  untouched s (snd (foldl (collectState frame) (acc, s) l)).
Proof.
  revert acc s. induction l as [|e l IH]; intros acc s; cbn [foldl].
  - apply untouched_refl.
  - destruct (collectState_untouched frame acc s e) as (Hu & _).
    destruct (collectState frame (acc, s) e) as [acc1 s1]. cbn [snd] in Hu.
    eapply untouched_trans; [exact Hu | apply IH].
Qed.

Lemma sendPosition_untouched (d : list EntityState.t) (s : ServerGame)
  (p : loc) :
  untouched s (sendPosition d s p).
Proof.
  unfold sendPosition.
  destruct (ServerPlayer.movement (players s !!! p)) as [m|]; cbn.
  - destruct (negb (length d =? 0)%nat || _); unfold untouched; cbn; tauto.
  - destruct (negb (length d =? 0)%nat || false); unfold untouched; cbn;
      tauto.
Qed.

Lemma broadcast_loop_untouched (d : list EntityState.t) (ps : list loc)
  (s : ServerGame) :
  untouched s (foldl (sendPosition d) s ps).
Proof.
  revert s. induction ps as [|p ps IH]; intros s; cbn [foldl].
  - apply untouched_refl.
  - eapply untouched_trans; [apply sendPosition_untouched | apply IH].
Qed.

Lemma acknowledge_idem (player : ServerPlayer.t) :
  acknowledge (acknowledge player) = acknowledge player.
Proof.
  unfold acknowledge.
  destruct (ServerPlayer.movement player) as [m|] eqn:Hm; cbn; [reflexivity|].
  rewrite Hm. reflexivity.
Qed.

Lemma sendPosition_player (d : list EntityState.t) (s : ServerGame)
  (p q : loc) :
  players (sendPosition d s p) !!! q
  = if decide (q = p) then acknowledge (players s !!! q)
    else players s !!! q.
Proof.
  rewrite sendPosition_players. unfold acknowledge.
  destruct (decide (q = p)) as [->|Hne].
  - destruct (ServerPlayer.movement (players s !!! p)); [|reflexivity].
    apply lookup_total_insert_eq.
  - destruct (ServerPlayer.movement (players s !!! p)); [|reflexivity].
    apply lookup_total_insert_ne. congruence.
Qed.

Lemma broadcast_loop_player (d : list EntityState.t) (ps : list loc)
  (s : ServerGame) (q : loc) :
  players (foldl (sendPosition d) s ps) !!! q
  = if decide (q ∈ ps) then acknowledge (players s !!! q)
    else players s !!! q.
Proof.
  revert s. induction ps as [|p ps IH]; intros s; cbn [foldl].
  - rewrite decide_False; [reflexivity|]. intros H. inversion H.
  - rewrite IH, sendPosition_player.
    destruct (decide (q = p)) as [->|Hne].
    + rewrite (decide_True (P := p ∈ p :: ps)) by (by left).
      destruct (decide (p ∈ ps)); [apply acknowledge_idem | reflexivity].
    + destruct (decide (q ∈ ps)) as [Hin|Hnotin].
      * rewrite decide_True by (by right). reflexivity.
      * rewrite decide_False; [reflexivity|].
        intros Hin. apply elem_of_cons in Hin as [?|?]; contradiction.
Qed.

Lemma acknowledge_getUser (player : ServerPlayer.t) :
  ServerPlayer.getUser (acknowledge player) = ServerPlayer.getUser player.
Proof.
  unfold acknowledge. destruct (ServerPlayer.movement player); reflexivity.
Qed.

Lemma acknowledge_acknowledged (player : ServerPlayer.t) :
  acknowledged (acknowledge player).
Proof.
  unfold acknowledge, acknowledged.
  destruct (ServerPlayer.movement player) as [m|] eqn:Hm; cbn;
    [reflexivity | rewrite Hm; exact I].
Qed.

(** X6: what [update] changes.  Of the state the broadcast starts from it
    leaves the users, the views, the roster, the entity table, the blocks,
    the id counter, the chat and the log as they are; an entity changes only
    if it is dirty and in the table, and then only in its timestamp and its
    sent mark; a player changes only if it is in the roster, and then only
    in its controller's [lastSequenceSent]. *)
Theorem update_changes_only_marks (ext : Externals) (frame : Frame)
  (s : ServerGame) :
  let s1 := advance ext frame s in
  let s' := update ext frame s in
  untouched s1 s'
  /\ (forall e, entities s' !!! e
                = if decide (e ∈ map_entities s1 /\ dirty s1 e)
                  then stamped frame (entities s1 !!! e)
                  else entities s1 !!! e)
  /\ (forall q, players s' !!! q
                = if decide (q ∈ state_players s1)
                  then acknowledge (players s1 !!! q)
                  else players s1 !!! q).
Proof.
  intros s1 s'. subst s'. unfold update. fold s1.
  split; [|split].
  - rewrite broadcast_unfold. eapply untouched_trans.
    + apply (scan_untouched frame (map_entities s1) [] s1).
    + apply broadcast_loop_untouched.
  - apply broadcast_entities.
  - intros q. rewrite broadcast_unfold, broadcast_loop_player.
    destruct (scanned_frame frame s1) as (-> & _). reflexivity.
Qed.

(** When nothing is left to report the loop sends nothing. *)
Lemma broadcast_loop_quiet (ps : list loc) (s : ServerGame) :
  (forall p, p ∈ ps -> acknowledged (players s !!! p)) ->
  session_sent (foldl (sendPosition []) s ps) = session_sent s.
Proof.
  revert s. induction ps as [|p ps IH]; intros s Hack; cbn [foldl].
  - reflexivity.
  - rewrite IH.
    + rewrite sendPosition_sent. unfold positionOut, needsPacket.
      specialize (Hack p (ltac:(by left))). unfold acknowledged in Hack.
      destruct (ServerPlayer.movement (players s !!! p)) as [m|]; cbn.
      * rewrite Hack, Z.eqb_refl. cbn. apply app_nil_r.
      * apply app_nil_r.
    + intros q Hq. apply sendPosition_acknowledges. right.
      apply Hack. by right.
Qed.

Lemma broadcast_state_players (frame : Frame) (s1 : ServerGame) :
  state_players (broadcast frame s1) = state_players s1.
Proof.
  rewrite broadcast_unfold.
  destruct (broadcast_loop_frame (fst (collectStates frame s1))
              (state_players s1) (snd (collectStates frame s1)))
    as (_ & _ & ->).
  apply scanned_frame.
Qed.

(** After the broadcast a scan finds nothing to collect. *)
Lemma broadcast_clean (frame frame' : Frame) (s1 : ServerGame) :
  fst (collectStates frame' (broadcast frame s1)) = [].
Proof.
  unfold collectStates. apply scan_states_nil.
  rewrite broadcast_map_entities. intros e He. unfold dirty.
  rewrite broadcast_entities.
  destruct (decide (e ∈ map_entities s1 /\ dirty s1 e)) as [|Hn];
    [discriminate|].
  unfold dirty in Hn. tauto.
Qed.

(** X7: a tick that follows a tick, with nothing arriving and nothing
    moving in between, sends no packet: the first tick marked every entity
    of the table sent and acknowledged every roster player. *)
Theorem update_settles (ext : Externals) (frame frame' : Frame)
  (s : ServerGame) :
  let s' := update ext frame s in
  advance ext frame' s' = s' ->
  sentSince s' (update ext frame' s') = [].
Proof.
  intros s' Hidle. apply sentSince_refl.
  unfold update at 1. rewrite Hidle. subst s'. unfold update.
  set (s1 := advance ext frame s).
  rewrite (broadcast_unfold frame' (broadcast frame s1)), broadcast_clean.
  destruct (scanned_frame frame' (broadcast frame s1))
    as (Hp & _ & _ & _ & <-).
  apply broadcast_loop_quiet. intros p Hp'. rewrite Hp.
  apply broadcast_acknowledges.
  rewrite broadcast_state_players in Hp'. exact Hp'.
Qed.

Lemma sendPosition_getUser (d : list EntityState.t) (s : ServerGame)
  (p q : loc) :
  ServerPlayer.getUser (players (sendPosition d s p) !!! q)
  = ServerPlayer.getUser (players s !!! q).
Proof.
  rewrite sendPosition_player.
  destruct (decide (q = p)); [apply acknowledge_getUser | reflexivity].
Qed.

Lemma broadcast_loop_addressed (d : list EntityState.t) (ps : list loc)
  (s : ServerGame) :
  exists out,
    session_sent (foldl (sendPosition d) s ps) = session_sent s ++ out
    /\ (length out <= length ps)%nat
    /\ Forall (fun m =>
                 exists p sequence,
                   p ∈ ps
                   /\ m = (EntityPosition sequence d,
                           Some (ServerPlayer.getUser (players s !!! p))))
         out.
Proof.
  revert s. induction ps as [|p ps IH]; intros s; cbn [foldl].
  - exists []. split; [symmetry; apply app_nil_r|].
    split; [reflexivity | constructor].
  - destruct (IH (sendPosition d s p)) as (out & Hout & Hlen & Hall).
    exists (positionOut d s p ++ out). split; [|split].
    + rewrite Hout, sendPosition_sent, app_assoc. reflexivity.
    + rewrite length_app, positionOut_length. cbn [length].
      destruct (needsPacket _ _); lia.
    + apply Forall_app. split.
      * unfold positionOut. destruct (needsPacket _ _); repeat constructor.
        exists p, (ackSequence (players s !!! p)).
        split; [by left | reflexivity].
      * eapply Forall_impl; [exact Hall|].
        intros m (q & sequence & Hq & ->). exists q, sequence.
        split; [by right|]. rewrite sendPosition_getUser. reflexivity.
Qed.

(** X8: every packet the broadcast part of [update] sends, that is every
    packet sent after the network poll, the player updates and the state
    update, is an EntityPosition addressed to the user of a player that is
    in the roster at that point; the broadcast part sends nothing to all
    users, and it sends at most as many packets as that roster has players.
    The three earlier steps belong to other files and may send packets of
    their own, which are not covered here. *)
Theorem update_packets_addressed (ext : Externals) (frame : Frame)
  (s : ServerGame) :
  let s1 := advance ext frame s in
  let s' := update ext frame s in
  (length (sentSince s1 s') <= length (state_players s1))%nat
  /\ Forall (fun m =>
               exists p sequence states,
                 p ∈ state_players s1
                 /\ m = (EntityPosition sequence states,
                         Some (ServerPlayer.getUser (players s1 !!! p))))
       (sentSince s1 s').
Proof.
  intros s1 s'. subst s'. unfold update. fold s1.
  destruct (broadcast_loop_addressed (fst (collectStates frame s1))
              (state_players s1) (snd (collectStates frame s1)))
    as (out & Hout & Hlen & Hall).
  destruct (scanned_frame frame s1) as (Hp & _ & _ & _ & Hsent).
  rewrite (sentSince_app s1 (broadcast frame s1) out)
    by (rewrite broadcast_unfold, Hout, Hsent; reflexivity).
  split; [exact Hlen|].
  eapply Forall_impl; [exact Hall|].
  intros m (p & sequence & Hin & ->). rewrite Hp. eauto.
Qed.

(** X9: the timestamp [(frame.time * 1000) | 0] is a signed 32-bit integer
    for every frame, and it is 0 when the frame time is NaN or infinite. *)
Theorem frameMillis_range (frame : Frame) :
  - 2 ^ 31 <= frameMillis frame < 2 ^ 31
  /\ (integerPart (frame_time frame) = None -> frameMillis frame = 0).
Proof.
  split.
  - unfold frameMillis, ToInt32, wrap32.
    pose proof (Z.mod_pos_bound
                  (default 0
                     (integerPart
                        (number_mul (frame_time frame) (number_of_Z 1000)))
                   + 2 ^ 31) (2 ^ 32)) as Hb.
    lia.
  - unfold frameMillis. destruct (frame_time frame) as [sg|sg| |sg m e];
      cbn; intros H; try discriminate H; reflexivity.
Qed.

Lemma sar_small (b : Z) :
  - 2 ^ 31 <= b < 2 ^ 31 -> sar b 8 = b / 256.
Proof.
  intros Hb. unfold sar, wrap32.
  rewrite Z.mod_small by lia.
  replace (b + 2 ^ 31 - 2 ^ 31) with b by lia.
  rewrite Z.shiftr_div_pow2 by lia. reflexivity.
Qed.

(** X10: for a user with a player and a view and non-zero block data within
    the signed 32-bit range, [setBlock] accepts the edit exactly when the
    block data divided by 256, rounded down, is a registered block type: the
    low eight bits play no part in the validation. *)
Theorem setBlock_type_identifier (user : loc) (x y z blockData : Z)
  (s : ServerGame) (p v : loc) :
  User.data (users s !!! user) = Some p ->
  ServerPlayer.view (players s !!! p) = Some v ->
  blockData <> 0 ->
  - 2 ^ 31 <= blockData < 2 ^ 31 ->
  fst (setBlock user x y z blockData s) = true
  <-> blockData / 256 ∈ map_blockSet s.
Proof.
  intros Hp Hv Hnz Hrange. unfold setBlock. rewrite Hp, Hv.
  rewrite sar_small by assumption.
  apply Z.eqb_neq in Hnz. rewrite Hnz. cbn [negb andb].
  destruct (decide (blockData / 256 ∈ map_blockSet s)) as [Hin|Hout].
  - rewrite bool_decide_eq_true_2 by assumption. cbn. tauto.
  - rewrite bool_decide_eq_false_2 by assumption. cbn.
    split; [discriminate | contradiction].
Qed.

Lemma setBlock_type_identifier_witness :
  fst (setBlock userB 1 2 3 261 serverAB) = true
  <-> 261 / 256 ∈ map_blockSet serverAB.
Proof.
  apply (setBlock_type_identifier userB 1 2 3 261 serverAB 3%nat 4%nat).
  - vm_compute. reflexivity.
  - vm_compute. reflexivity.
  - discriminate.
  - lia.
Defined.

Lemma advance_quiet (frame : Frame) (s : ServerGame) :
  advance quiet frame s = s.
Proof.
  unfold advance. cbn. induction (state_players s) as [|p ps IH];
    [reflexivity | exact IH].
Qed.

Lemma update_settles_witness :
  sentSince (update quiet frameEarly serverAB)
    (update quiet frameLate (update quiet frameEarly serverAB)) = [].
Proof.
  apply (update_settles quiet frameEarly frameLate serverAB).
  apply advance_quiet.
Defined.

Lemma handleUserDisconnect_tears_down_witness :
  let s' := handleUserDisconnect userA serverAB in
  absent userA s'
  /\ ServerPlayer.view (players s' !!! 0%nat) = None
  /\ ServerPlayer.disposed (players s' !!! 0%nat) = true
  /\ (forall v, ServerPlayer.view (players serverAB !!! 0%nat) = Some v ->
                (v ∉ map_chunkViews s')
                /\ ChunkView.disposed (views s' !!! v) = true)
  /\ (forall e, ServerPlayer.entity (players serverAB !!! 0%nat) = Some e ->
                e ∉ map_entities s')
  /\ (forall q, q ∈ state_players serverAB ->
                ServerPlayer.getUser (players serverAB !!! q) <> userA ->
                q ∈ state_players s')
  /\ (forall q, q <> 0%nat -> players s' !!! q = players serverAB !!! q).
Proof.
  apply (handleUserDisconnect_tears_down userA serverAB 0%nat).
  vm_compute. reflexivity.
Defined.

Lemma connect_then_disconnect_witness :
  let s1 := handleUserConnect quiet userB serverA in
  let s2 := handleUserDisconnect userB s1 in
  state_players s2 = state_players serverA
  /\ map_entities s2 = map_entities serverA
  /\ map_chunkViews s2 = map_chunkViews serverA
  /\ nextEntityId_ s2 = nextEntityId_ serverA + 1
  /\ sentSince s1 s2 = [(EntityDelete (nextEntityId_ serverA), None)].
Proof.
  apply (connect_then_disconnect quiet userB serverA).
  - intros p Hp.
    replace (state_players serverA) with [0%nat] in Hp
      by (vm_compute; reflexivity).
    apply list_elem_of_singleton in Hp as ->. vm_compute. discriminate.
  - intros p Hp.
    replace (state_players serverA) with [0%nat] in Hp
      by (vm_compute; reflexivity).
    apply list_elem_of_singleton in Hp as ->. vm_compute. lia.
  - intros e He.
    replace (map_entities serverA) with [2%nat] in He
      by (vm_compute; reflexivity).
    apply list_elem_of_singleton in He as ->. vm_compute. lia.
  - intros v Hv.
    replace (map_chunkViews serverA) with [1%nat] in Hv
      by (vm_compute; reflexivity).
    apply list_elem_of_singleton in Hv as ->. vm_compute. lia.
Defined.

(** * Invariants of the tables along runs *)

Lemma elem_of_map_id (s : ServerGame) (l : list loc) (i : Z) :
  i ∈ map (fun e => Entity.id (entities s !!! e)) l
  -> exists e, e ∈ l /\ Entity.id (entities s !!! e) = i.
Proof.
  induction l as [|a l IH]; cbn; intros H; [inversion H|].
  apply elem_of_cons in H as [->|H].
  - exists a. split; [by left | reflexivity].
  - destruct (IH H) as (e & He & Hi). exists e. split; [by right | exact Hi].
Qed.

Lemma NoDup_map_filter {A B : Type} (f : A -> B) (P : A -> Prop)
  `{forall x, Decision (P x)} (l : list A) :
  NoDup (map f l) -> NoDup (map f (filter P l)).
Proof.
  assert (forall (l : list A) y, y ∈ map f (filter P l) -> y ∈ map f l)
    as Hsub.
  { clear l. intros l y. induction l as [|b l IH]; [tauto|].
    rewrite filter_cons. cbn [map]. destruct (decide (P b)); cbn [map].
    - intros Hin. apply elem_of_cons in Hin as [->|Hin];
        [by left | right; auto].
    - intros Hin. right. auto. }
  induction l as [|a l IH]; intros Hnd; [constructor|].
  cbn [map] in Hnd. apply NoDup_cons in Hnd as [Hnotin Hnd].
  rewrite filter_cons. destruct (decide (P a)); [|auto].
  cbn [map]. apply NoDup_cons. split; [|auto].
  intros Hin. apply Hnotin. apply Hsub. exact Hin.
Qed.

Lemma map_id_ext (s s' : ServerGame) (l : list loc) :
  (forall e, e ∈ l ->
     Entity.id (entities s' !!! e) = Entity.id (entities s !!! e)) ->
  map (fun e => Entity.id (entities s' !!! e)) l
  = map (fun e => Entity.id (entities s !!! e)) l.
Proof.
  induction l as [|a l IH]; intros H; cbn; [reflexivity|].
  rewrite H by (by left). rewrite IH; [reflexivity|].
  intros e He. apply H. by right.
Qed.

(** ** Requests that keep what the invariants read *)

Lemma same_links_ids_ok (s s' : ServerGame) :
  same_links s s' -> ids_ok s -> ids_ok s'.
Proof.
  intros (_ & _ & Ht & Ho & Hn & _ & He) (Hnd & Hpos & Hid & Hal).
  unfold ids_ok, entityIds. rewrite Ht, Ho, Hn.
  rewrite (map_id_ext s s') by (intros e _; apply He).
  split; [exact Hnd|]. split; [exact Hpos|]. split; [|exact Hal].
  intros e Hin. destruct (He e) as (-> & _). auto.
Qed.

Lemma same_links_linked (ext : Externals) (s s' : ServerGame) :
  same_links s s' -> linked ext s -> linked ext s'.
Proof.
  intros (Hu & Hr & Ht & Ho & _ & Hp & He)
    ((Hps & Hes & Hpa & Hea & Hinj) & Hb & Hc & Hd & Hk & Hg).
  assert (forall p, ServerPlayer.getUser (players s' !!! p)
                    = ServerPlayer.getUser (players s !!! p)) as Hgu
    by (intros p; apply Hp).
  assert (forall p, ServerPlayer.entity (players s' !!! p)
                    = ServerPlayer.entity (players s !!! p)) as Hpe
    by (intros p; apply Hp).
  unfold linked, tables_ok. rewrite Hu, Hr, Ht, Ho.
  repeat split; try assumption.
  - intros p q Hpin Hqin. rewrite !Hgu. auto.
  - intros p Hpin. rewrite Hgu. auto.
  - intros p Hpin. rewrite Hpe. auto.
  - destruct (He e) as (_ & -> & _). apply Hd. assumption.
  - destruct (Hd e) as (_ & p & Hpin & Hent); [assumption|].
    exists p. rewrite Hpe. auto.
  - destruct (He e) as (_ & _ & ->). rewrite Hpe in *. apply (Hk p e).
    assumption.
  - rewrite Hpe in *. apply (Hk p e). assumption.
  - rewrite Hgu. apply (Hg u p). assumption.
  - apply (Hg u p). assumption.
Qed.

Lemma broadcast_same_links (frame : Frame) (s : ServerGame) :
  same_links s (broadcast frame s).
Proof.
  assert (untouched s (broadcast frame s)) as Hu.
  { rewrite broadcast_unfold. eapply untouched_trans.
    - apply (scan_untouched frame (map_entities s) [] s).
    - apply broadcast_loop_untouched. }
  destruct Hu as (Hus & _ & Ho & _ & _ & Ht & _ & _ & _ & Hr & Hn & _).
  unfold same_links. repeat split; try assumption.
  - rewrite broadcast_unfold, broadcast_loop_player.
    destruct (scanned_frame frame s) as (-> & _).
    destruct (decide _); [apply acknowledge_getUser | reflexivity].
  - rewrite broadcast_unfold, broadcast_loop_player.
    destruct (scanned_frame frame s) as (-> & _).
    destruct (decide _); [|reflexivity].
    unfold acknowledge.
    destruct (ServerPlayer.movement (players s !!! p)); reflexivity.
  - rewrite broadcast_entities. destruct (decide _); reflexivity.
  - rewrite broadcast_entities. destruct (decide _); reflexivity.
  - rewrite broadcast_entities. destruct (decide _); reflexivity.
Qed.

Lemma same_links_refl (s : ServerGame) : same_links s s.
Proof. unfold same_links. repeat split; reflexivity. Qed.

Lemma setBlock_same_links (user : loc) (x y z blockData : Z)
  (s : ServerGame) :
  same_links s (snd (setBlock user x y z blockData s)).
Proof.
  unfold setBlock.
  destruct (User.data (users s !!! user)) as [p|]; [|apply same_links_refl].
  destruct (ServerPlayer.view (players s !!! p)) as [v|];
    [|apply same_links_refl].
  destruct (negb (blockData =? 0) && _).
  - unfold same_links. cbn. repeat split; reflexivity.
  - unfold ChunkView_setBlock.
    destruct (negb (getBlock s x y z =? blockData));
      unfold same_links; cbn; repeat split; reflexivity.
Qed.

Lemma movePlayer_same_links (user : loc) (commands : list MoveCommand.t)
  (s : ServerGame) :
  same_links s
    match movePlayer user commands s with
    | Normal (_, s') => s'
    | TypeError => s
    end.
Proof.
  unfold movePlayer.
  destruct (User.data (users s !!! user)) as [p|]; [|apply same_links_refl].
  destruct (ServerPlayer.movement (players s !!! p)) as [m|];
    [|apply same_links_refl].
  unfold same_links, update_player. cbn. repeat split; try reflexivity.
  - destruct (decide (p = p0)) as [->|Hne].
    + rewrite lookup_total_insert_eq. reflexivity.
    + rewrite lookup_total_insert_ne by assumption. reflexivity.
  - destruct (decide (p = p0)) as [->|Hne].
    + rewrite lookup_total_insert_eq. reflexivity.
    + rewrite lookup_total_insert_ne by assumption. reflexivity.
Qed.

(** ** Entity ids *)

Lemma connect_ids_ok (ext : Externals) (user : loc) (s : ServerGame) :
  ids_ok s -> ids_ok (handleUserConnect ext user s).
Proof.
  intros (Hnd & Hpos & Hid & Hal). unfold ids_ok, entityIds.
  rewrite connect_map_entities, connect_nextEntityId_, connect_nextObject,
    connect_entities.
  assert (forall e, e ∈ map_entities s ->
            <[S (S (nextObject s)) :=
                Entity.make (nextEntityId_ s) (USER_CONTROLLED ext)
                  (Some (nextObject s))
                  (EntityState.set_position
                     (Vec3.createFloat32FromValues 0 80 0)
                     (Entity_initialState ext))
                  (Entity_initialSent ext)]> (entities s) !!! e
            = entities s !!! e) as Hold.
  { intros e He. apply lookup_total_insert_ne. specialize (Hal e He). lia. }
  split; [|split; [lia|split]].
  - rewrite map_app. cbn [map]. rewrite lookup_total_insert_eq. cbn.
    erewrite (map_ext_in _ (fun e => Entity.id (entities s !!! e))).
    2:{ intros e He. rewrite Hold; [reflexivity|].
        apply list_elem_of_In. exact He. }
    apply NoDup_app. split; [exact Hnd|]. split; [|apply NoDup_singleton].
    intros i Hi Hin. apply list_elem_of_singleton in Hin as ->.
    apply elem_of_map_id in Hi as (e & He & Heq).
    specialize (Hid e He). lia.
  - intros e He. apply elem_of_app in He as [He|He].
    + rewrite (Hold e He). specialize (Hid e He). lia.
    + apply list_elem_of_singleton in He as ->.
      rewrite lookup_total_insert_eq. cbn. lia.
  - intros e He. apply elem_of_app in He as [He|He].
    + specialize (Hal e He). lia.
    + apply list_elem_of_singleton in He as ->. lia.
Qed.

Lemma disconnect_ids_ok (user : loc) (s : ServerGame) :
  ids_ok s -> ids_ok (handleUserDisconnect user s).
Proof.
  intros (Hnd & Hpos & Hid & Hal).
  destruct (User.data (users s !!! user)) as [p|] eqn:Hp.
  - destruct (disconnect_fields user s p Hp)
      as (_ & Htable & _ & _ & _ & _ & Hent & Ho & Hn & _).
    unfold ids_ok, entityIds. rewrite Htable, Hent, Ho, Hn.
    destruct (ServerPlayer.entity (players s !!! p)) as [e|].
    + split; [apply NoDup_map_filter; exact Hnd|]. split; [exact Hpos|].
      split; intros e' He'; apply list_elem_of_filter in He' as [_ He'];
        auto.
    + repeat split; auto; apply Hid; assumption.
  - unfold handleUserDisconnect. cbn. rewrite Hp. 
    unfold ids_ok, entityIds. cbn. repeat split; auto; apply Hid; assumption.
Qed.

Lemma serve_ids_ok (ext : Externals) (s : ServerGame) (r : Request) :
  (forall frame s, ids_ok s -> ids_ok (advance ext frame s)) ->
  ids_ok s -> ids_ok (serve ext s r).
Proof.
  intros Hadv Hok. destruct r as [user|user|user x y z b|user cs|frame]; cbn.
  - apply connect_ids_ok. exact Hok.
  - apply disconnect_ids_ok. exact Hok.
  - eapply same_links_ids_ok; [apply setBlock_same_links | exact Hok].
  - eapply same_links_ids_ok;
      [apply (movePlayer_same_links user cs s) | exact Hok].
  - unfold update. eapply same_links_ids_ok; [apply broadcast_same_links|].
    apply Hadv. exact Hok.
Qed.

(** X11: in every state a run of requests reaches from the constructed
    server, no two entities of the table have the same id and every id in
    the table is at least 0 and below [nextEntityId_], provided the parts of
    the tick that belong to other files keep that property. *)
Theorem run_ids_distinct (ext : Externals) (rs : list Request)
  (us : gmap loc User.t) (connected : list loc) (blockSet : gset Z)
  (blocks : gmap (Z * Z * Z) Z) :
  (forall frame s, ids_ok s -> ids_ok (advance ext frame s)) ->
  let s := foldl (serve ext) (ServerGame_new us connected blockSet blocks) rs in
  NoDup (entityIds s)
  /\ (forall e, e ∈ map_entities s ->
        0 <= Entity.id (entities s !!! e) < nextEntityId_ s).
Proof.
  intros Hadv s.
  assert (ids_ok s) as (Hnd & _ & Hid & _); [|split; assumption].
  subst s.
  assert (ids_ok (ServerGame_new us connected blockSet blocks)) as Hinit.
  { unfold ids_ok, entityIds. cbn. split; [constructor|]. split; [lia|].
    split; intros e He; inversion He. }
  revert Hinit. generalize (ServerGame_new us connected blockSet blocks).
  induction rs as [|r rs IH]; intros s0 Hok; cbn [foldl]; [exact Hok|].
  apply IH. apply serve_ids_ok; assumption.
Qed.

(** ** Players and their entities *)

Lemma connect_linked (ext : Externals) (user : loc) (s : ServerGame) :
  linked ext s -> absent user s -> linked ext (handleUserConnect ext user s).
Proof.
  intros (Htab & Hb & Hc & Hd & Hk & Hg) Habs.
  pose proof (connect_tables_ok ext user s Htab Habs) as Htab'.
  destruct Htab as (_ & _ & Hpa & Hea & _).
  set (s' := handleUserConnect ext user s) in *.
  set (pnew := nextObject s). set (enew := S (S (nextObject s))).
  assert (players s' !!! pnew
          = ServerPlayer.make user (Some enew) (Some (S (nextObject s)))
              (Some (ServerMovement.make (S (nextObject s)) (Some enew)
                       (ServerMovement_initialSequence ext)
                       (ServerMovement_initialSequenceSent ext) []))
              false) as Hpnew.
  { subst s'. rewrite connect_players. apply lookup_total_insert_eq. }
  assert (forall p, p <> pnew -> players s' !!! p = players s !!! p) as Hpold.
  { intros p Hne. subst s'. rewrite connect_players.
    apply lookup_total_insert_ne. subst pnew. congruence. }
  assert (entities s' !!! enew
          = Entity.make (nextEntityId_ s) (USER_CONTROLLED ext) (Some pnew)
              (EntityState.set_position
                 (Vec3.createFloat32FromValues 0 80 0)
                 (Entity_initialState ext))
              (Entity_initialSent ext)) as Henew.
  { subst s'. rewrite connect_entities. apply lookup_total_insert_eq. }
  assert (forall e, e <> enew -> entities s' !!! e = entities s !!! e)
    as Heold.
  { intros e Hne. subst s'. rewrite connect_entities.
    apply lookup_total_insert_ne. subst enew. congruence. }
  assert (users s' !!! user = User.set_data (Some pnew) (users s !!! user))
    as Hunew.
  { subst s'. rewrite connect_users. apply lookup_total_insert_eq. }
  assert (forall u, u <> user -> users s' !!! u = users s !!! u) as Huold.
  { intros u Hne. subst s'. rewrite connect_users.
    apply lookup_total_insert_ne. congruence. }
  assert (state_players s' = state_players s ++ [pnew]) as Hroster
    by apply connect_state_players.
  assert (map_entities s' = map_entities s ++ [enew]) as Htable
    by apply connect_map_entities.
  assert (nextObject s' = S (S (S (nextObject s)))) as Hnext
    by apply connect_nextObject.
  assert (forall p, p ∈ state_players s -> p <> pnew) as Hpfresh.
  { intros p Hp. specialize (Hpa p Hp). subst pnew. lia. }
  assert (forall e, e ∈ map_entities s -> e <> enew) as Hefresh.
  { intros e He. specialize (Hea e He). subst enew. lia. }
  unfold linked. split; [exact Htab'|].
  rewrite Hroster, Htable, Hnext.
  split; [|split; [|split; [|split]]].
  - intros p Hp. apply elem_of_app in Hp as [Hp|Hp].
    + rewrite (Hpold p (Hpfresh p Hp)).
      rewrite Huold by (apply Habs; exact Hp). apply Hb. exact Hp.
    + apply list_elem_of_singleton in Hp as ->.
      rewrite Hpnew. cbn. rewrite Hunew. reflexivity.
  - intros p Hp. apply elem_of_app in Hp as [Hp|Hp].
    + rewrite (Hpold p (Hpfresh p Hp)).
      destruct (Hc p Hp) as (e & He & Hin). exists e.
      split; [exact He | apply elem_of_app; by left].
    + apply list_elem_of_singleton in Hp as ->.
      rewrite Hpnew. exists enew.
      split; [reflexivity | apply elem_of_app; right; by left].
  - intros e He. apply elem_of_app in He as [He|He].
    + rewrite (Heold e (Hefresh e He)).
      destruct (Hd e He) as (Hflags & p & Hp & Hent).
      split; [exact Hflags|]. exists p.
      split; [apply elem_of_app; by left|].
      rewrite (Hpold p (Hpfresh p Hp)). exact Hent.
    + apply list_elem_of_singleton in He as ->. rewrite Henew.
      split; [reflexivity|]. exists pnew.
      split; [apply elem_of_app; right; by left|].
      rewrite Hpnew. reflexivity.
  - intros p e Hent. destruct (decide (p = pnew)) as [->|Hne].
    + rewrite Hpnew in Hent. cbn in Hent. injection Hent as <-.
      rewrite Henew. split; [reflexivity | subst enew; lia].
    + rewrite (Hpold p Hne) in Hent. destruct (Hk p e Hent) as [Hback Hlt].
      rewrite Heold by (subst enew; lia). split; [exact Hback | lia].
  - intros u p Hdata. destruct (decide (u = user)) as [->|Hne].
    + rewrite Hunew in Hdata. cbn in Hdata. injection Hdata as <-.
      rewrite Hpnew. split; [reflexivity | subst pnew; lia].
    + rewrite (Huold u Hne) in Hdata.
      destruct (Hg u p Hdata) as [Huser Hlt].
      rewrite Hpold by (subst pnew; lia). split; [exact Huser | lia].
Qed.

Lemma disconnect_linked (ext : Externals) (user : loc) (s : ServerGame) :
  linked ext s -> linked ext (handleUserDisconnect user s).
Proof.
  intros Hlink.
  destruct (User.data (users s !!! user)) as [pl|] eqn:Hpl.
  2:{ eapply same_links_linked; [|exact Hlink].
      unfold handleUserDisconnect. cbn. rewrite Hpl.
      unfold same_links. cbn. repeat split; reflexivity. }
  destruct Hlink as (Htab & Hb & Hc & Hd & Hk & Hg).
  pose proof (disconnect_tables_ok user s Htab) as Htab'.
  destruct (disconnect_fields user s pl Hpl)
    as (Hroster & Htable & _ & Hplayers & _ & Husers & Hents & Hnext & _).
  set (s' := handleUserDisconnect user s) in *.
  assert (forall q, ServerPlayer.getUser (players s' !!! q)
                    = ServerPlayer.getUser (players s !!! q)) as Hgu.
  { intros q. rewrite Hplayers. destruct (decide (pl = q)) as [->|Hne].
    - rewrite lookup_total_insert_eq. reflexivity.
    - rewrite lookup_total_insert_ne by assumption. reflexivity. }
  assert (forall q, ServerPlayer.entity (players s' !!! q)
                    = ServerPlayer.entity (players s !!! q)) as Hpe.
  { intros q. rewrite Hplayers. destruct (decide (pl = q)) as [->|Hne].
    - rewrite lookup_total_insert_eq. reflexivity.
    - rewrite lookup_total_insert_ne by assumption. reflexivity. }
  destruct (Hg user pl Hpl) as [Hpluser _].
  assert (forall q, q ∈ state_players s' ->
            q ∈ state_players s
            /\ ServerPlayer.getUser (players s !!! q) <> user) as Hin'.
  { intros q Hq. rewrite Hroster in Hq.
    apply list_elem_of_filter in Hq. tauto. }
  assert (forall e, e ∈ map_entities s' <->
            e ∈ map_entities s
            /\ ServerPlayer.entity (players s !!! pl) <> Some e) as Het.
  { intros e. rewrite Htable.
    destruct (ServerPlayer.entity (players s !!! pl)) as [epl|].
    - rewrite list_elem_of_filter. split.
      + intros [Hne Hin]. split; [exact Hin | congruence].
      + intros [Hin Hne]. split; [congruence | exact Hin].
    - split; [intros Hin; split; [exact Hin | discriminate] | tauto]. }
  unfold linked. split; [exact Htab'|]. rewrite Husers, Hents, Hnext.
  split; [|split; [|split; [|split]]].
  - intros q Hq. rewrite Hgu. apply Hb. apply Hin'. exact Hq.
  - intros q Hq. destruct (Hin' q Hq) as [Hqin Hqu].
    destruct (Hc q Hqin) as (e & He & Hein). exists e. rewrite Hpe.
    split; [exact He|]. apply Het. split; [exact Hein|].
    intros Hpl_e. destruct (Hk q e He) as [Hback _].
    destruct (Hk pl e Hpl_e) as [Hback' _].
    rewrite Hback in Hback'. injection Hback' as ->. contradiction.
  - intros e He. apply Het in He as [Hein Hne].
    destruct (Hd e Hein) as (Hflags & q & Hq & Hent).
    split; [exact Hflags|]. exists q. rewrite Hpe. split; [|exact Hent].
    rewrite Hroster. apply list_elem_of_filter. split; [|exact Hq].
    intros Hqu. apply Hne.
    pose proof (Hb q Hq) as Hdata. rewrite Hqu, Hpl in Hdata.
    injection Hdata as ->. exact Hent.
  - intros q e. rewrite Hpe. apply Hk.
  - intros u q Hdata. rewrite Hgu. apply Hg. exact Hdata.
Qed.

Lemma serve_linked (ext : Externals) (s : ServerGame) (r : Request) :
  (forall frame s, linked ext s -> linked ext (advance ext frame s)) ->
  linked ext s ->
  match r with ReqConnect user => absent user s | _ => True end ->
  linked ext (serve ext s r).
Proof.
  intros Hadv Hok Habs.
  destruct r as [user|user|user x y z b|user cs|frame]; cbn.
  - apply connect_linked; assumption.
  - apply disconnect_linked. exact Hok.
  - eapply same_links_linked; [apply setBlock_same_links | exact Hok].
  - eapply same_links_linked;
      [apply (movePlayer_same_links user cs s) | exact Hok].
  - unfold update. eapply same_links_linked; [apply broadcast_same_links|].
    apply Hadv. exact Hok.
Qed.

Lemma run_linked (ext : Externals) (rs : list Request) (s : ServerGame) :
  (forall frame s, linked ext s -> linked ext (advance ext frame s)) ->
  linked ext s -> admissible ext s rs ->
  linked ext (foldl (serve ext) s rs).
Proof.
  intros Hadv. revert s.
  induction rs as [|r rs IH]; intros s Hok Hadm; cbn [foldl]; [exact Hok|].
  destruct Hadm as [Hr Hadm]. apply IH; [|exact Hadm].
  apply serve_linked; assumption.
Qed.

Lemma ServerGame_new_linked (ext : Externals) (us : gmap loc User.t)
  (connected : list loc) (blockSet : gset Z) (blocks : gmap (Z * Z * Z) Z) :
  (forall u, User.data (us !!! u) = None) ->
  linked ext (ServerGame_new us connected blockSet blocks).
Proof.
  intros Hfresh. unfold linked.
  split; [apply ServerGame_new_tables_ok|]. cbn.
  split; [intros p Hp; inversion Hp|].
  split; [intros p Hp; inversion Hp|].
  split; [intros e He; inversion He|].
  split.
  - intros p e. rewrite lookup_total_empty. cbn. discriminate.
  - intros u p. rewrite Hfresh. discriminate.
Qed.

(** X12: along a run of requests from the constructed server in which no
    user has a player yet and a user is connected only while it has no
    player in the roster, roster players and table entities stay entangled
    one to one: every roster player sits in its user's data slot and holds
    an entity of the table that names it as owner; every entity of the
    table is user controlled and is held by a roster player; two roster
    players never hold the same entity.  The parts of the tick that belong
    to other files are assumed to keep this. *)
Theorem run_entangled (ext : Externals) (rs : list Request)
  (us : gmap loc User.t) (connected : list loc) (blockSet : gset Z)
  (blocks : gmap (Z * Z * Z) Z) :
  (forall u, User.data (us !!! u) = None) ->
  (forall frame s, linked ext s -> linked ext (advance ext frame s)) ->
  admissible ext (ServerGame_new us connected blockSet blocks) rs ->
  let s := foldl (serve ext) (ServerGame_new us connected blockSet blocks) rs in
  (forall p, p ∈ state_players s ->
     User.data (users s !!! ServerPlayer.getUser (players s !!! p)) = Some p
     /\ exists e, ServerPlayer.entity (players s !!! p) = Some e
                  /\ e ∈ map_entities s
                  /\ Entity.player (entities s !!! e) = Some p)
  /\ (forall e, e ∈ map_entities s ->
        Entity.flags (entities s !!! e) = USER_CONTROLLED ext
        /\ exists p, p ∈ state_players s
                     /\ ServerPlayer.entity (players s !!! p) = Some e
                     /\ Entity.player (entities s !!! e) = Some p)
  /\ (forall p q e, p ∈ state_players s -> q ∈ state_players s ->
        ServerPlayer.entity (players s !!! p) = Some e ->
        ServerPlayer.entity (players s !!! q) = Some e -> p = q)
  /\ length (state_players s) = length (map_entities s).
Proof.
  intros Hfresh Hadv Hadm s.
  assert (linked ext s) as Hlink.
  { subst s. apply run_linked; [exact Hadv | | exact Hadm].
    apply ServerGame_new_linked. exact Hfresh. }
  destruct Hlink as (Htab & Hb & Hc & Hd & Hk & Hg).
  split; [|split; [|split]].
  - intros p Hp. split; [apply Hb; exact Hp|].
    destruct (Hc p Hp) as (e & He & Hin). exists e.
    split; [exact He|]. split; [exact Hin|]. apply (Hk p e He).
  - intros e He. destruct (Hd e He) as (Hflags & p & Hp & Hent).
    split; [exact Hflags|]. exists p. split; [exact Hp|].
    split; [exact Hent|]. apply (Hk p e Hent).
  - intros p q e _ _ Hp Hq.
    destruct (Hk p e Hp) as [Hbp _]. destruct (Hk q e Hq) as [Hbq _].
    congruence.
  - destruct Htab as (Hps & Hes & _).
    apply Nat.le_antisymm.
    + (* each roster player has an entity of the table, injectively *)
      transitivity (length (omap (fun p => ServerPlayer.entity
                                             (players s !!! p))
                              (state_players s))).
      * clear -Hc. induction (state_players s) as [|p ps IH]; [cbn; lia|].
        cbn. destruct (Hc p (ltac:(by left))) as (e & -> & _). cbn.
        apply le_n_S. apply IH. intros q Hq. apply Hc. by right.
      * apply submseteq_length. apply NoDup_submseteq.
        -- clear -Hps Hk. induction (state_players s) as [|p ps IH];
             [constructor|].
           apply NoDup_cons in Hps as [Hnotin Hps]. cbn.
           destruct (ServerPlayer.entity (players s !!! p)) as [e|] eqn:He;
             cbn; [|auto].
           apply NoDup_cons. split; [|auto].
           intros Hin. apply list_elem_of_omap in Hin as (q & Hq & Hqe).
           destruct (Hk p e He) as [Hbp _].
           destruct (Hk q e Hqe) as [Hbq _]. congruence.
        -- intros e Hin. apply list_elem_of_omap in Hin as (p & Hp & Hpe).
           destruct (Hc p Hp) as (e' & He' & Hin'). congruence.
    + transitivity (length (omap (fun e => Entity.player (entities s !!! e))
                              (map_entities s))).
      * clear -Hd Hk. induction (map_entities s) as [|e es IH]; [cbn; lia|].
        cbn. destruct (Hd e (ltac:(by left))) as (_ & p & _ & Hent).
        destruct (Hk p e Hent) as [-> _]. cbn.
        apply le_n_S. apply IH. intros e' He'. apply Hd. by right.
      * apply submseteq_length. apply NoDup_submseteq.
        -- clear -Hes Hd Hk. induction (map_entities s) as [|e es IH];
             [constructor|].
           apply NoDup_cons in Hes as [Hnotin Hes]. cbn.
           destruct (Entity.player (entities s !!! e)) as [p|] eqn:Hp;
             cbn; [|apply IH; [exact Hes | intros; apply Hd; by right]].
           apply NoDup_cons. split;
             [|apply IH; [exact Hes | intros; apply Hd; by right]].
           intros Hin. apply list_elem_of_omap in Hin as (e' & He' & Hpe').
           destruct (Hd e (ltac:(by left))) as (_ & q & _ & Hqe).
           destruct (Hk q e Hqe) as [Hbq _].
           destruct (Hd e' (ltac:(by right))) as (_ & q' & _ & Hqe').
           destruct (Hk q' e' Hqe') as [Hbq' _].
           assert (q = q') by congruence. subst q'.
           assert (e = e') by congruence. subst e'. contradiction.
        -- intros p Hin. apply list_elem_of_omap in Hin as (e & He & Hpe).
           destruct (Hd e He) as (_ & q & Hq & Hqe).
           destruct (Hk q e Hqe) as [Hbq _]. congruence.
Qed.

(** ** The run invariants on the example server *)

Lemma twoUsers_fresh (u : loc) : User.data (twoUsers !!! u) = None.
Proof.
  unfold twoUsers.
  destruct (decide (userA = u)) as [<-|Ha];
    [rewrite lookup_total_insert_eq; reflexivity|].
  rewrite lookup_total_insert_ne by assumption.
  destruct (decide (userB = u)) as [<-|Hb];
    [rewrite lookup_total_insert_eq; reflexivity|].
  rewrite lookup_total_insert_ne by assumption.
  rewrite lookup_total_empty. reflexivity.
Qed.

Ltac solve_absent :=
  let p := fresh "p" in
  let Hp := fresh "Hp" in
  intros p Hp; vm_compute in Hp;
  repeat (inversion Hp as [|? ? ? Hp']; subst; clear Hp;
          [try (vm_compute; intros H; discriminate H)
          | rename Hp' into Hp]);
  inversion Hp.

Lemma busyRun_admissible :
  admissible quiet (ServerGame_new twoUsers [userA; userB] {[ 1; 2 ]} ∅)
    busyRun.
Proof.
  unfold busyRun. cbn [admissible].
  repeat split; solve_absent.
Qed.

Lemma run_ids_distinct_witness :
  let s := foldl (serve quiet)
             (ServerGame_new twoUsers [userA; userB] {[ 1; 2 ]} ∅) busyRun in
  NoDup (entityIds s)
  /\ (forall e, e ∈ map_entities s ->
        0 <= Entity.id (entities s !!! e) < nextEntityId_ s).
Proof.
  apply (run_ids_distinct quiet busyRun twoUsers [userA; userB] {[ 1; 2 ]} ∅).
  intros frame s Hok. rewrite advance_quiet. exact Hok.
Defined.

Lemma run_entangled_witness :
  let s := foldl (serve quiet)
             (ServerGame_new twoUsers [userA; userB] {[ 1; 2 ]} ∅) busyRun in
  (forall p, p ∈ state_players s ->
     User.data (users s !!! ServerPlayer.getUser (players s !!! p)) = Some p
     /\ exists e, ServerPlayer.entity (players s !!! p) = Some e
                  /\ e ∈ map_entities s
                  /\ Entity.player (entities s !!! e) = Some p)
  /\ (forall e, e ∈ map_entities s ->
        Entity.flags (entities s !!! e) = USER_CONTROLLED quiet
        /\ exists p, p ∈ state_players s
                     /\ ServerPlayer.entity (players s !!! p) = Some e
                     /\ Entity.player (entities s !!! e) = Some p)
  /\ (forall p q e, p ∈ state_players s -> q ∈ state_players s ->
        ServerPlayer.entity (players s !!! p) = Some e ->
        ServerPlayer.entity (players s !!! q) = Some e -> p = q)
  /\ length (state_players s) = length (map_entities s).
Proof.
  apply (run_entangled quiet busyRun twoUsers [userA; userB] {[ 1; 2 ]} ∅).
  - apply twoUsers_fresh.
  - intros frame s Hok. rewrite advance_quiet. exact Hok.
  - apply busyRun_admissible.
Defined.

(** The run ends with B and the reconnected A in the roster, holding the
    entities with ids 1 and 2. *)
Example busyRun_end :
  let s := foldl (serve quiet) server0 busyRun in
  state_players s = [3%nat; 6%nat]
  /\ entityIds s = [1; 2]
  /\ nextEntityId_ s = 3.
Proof. repeat split; vm_compute; reflexivity. Qed.
